(** * Supermarket and inventory management: the ledger and the receipt

    A shallow embedding of [src/main.cpp]: the [Product] record, the
    [Inventory] class (a [std::map<int, Product>] with insert, delete,
    restock, sell and export) and the [Reciept] class (a vector of sold
    items with a running total), followed by the properties the
    specification states about them.

    Modelling choices.
    - [int] is a 32-bit two's complement integer, carried as a [Z] with the
      wrap-around of [+] and [-] written out ([Int.add], [Int.sub]).  C++
      leaves signed overflow undefined; the model takes the value every
      mainstream compiler produces for these expressions.
    - [std::map<int, Product>] is a [gmap Z Product]; its iteration order
      (ascending key) is [entries].
    - [double] prices are exact rationals ([Q]): the properties about the
      running total are stated up to rounding.
    - [cout] is the list of messages a call prints, [render] gives their text.
    - The clock ([TimeTools::now_timestamp]) and the stream formatting of a
      [double] are inputs of the export functions. *)

From Stdlib Require Import ZArith QArith Lia.
From stdpp Require Import gmap strings pretty sorting list.

Local Open Scope Z_scope.

(** ** The machine integers *)

Module Int.

Definition INT_MIN : Z := -2147483648.
Definition INT_MAX : Z := 2147483647.

Definition in_range (z : Z) : Prop := INT_MIN <= z <= INT_MAX.

(** The representative of [z] modulo [2^32] in [INT_MIN .. INT_MAX]. *)
Definition wrap (z : Z) : Z := (z + 2147483648) mod 4294967296 - 2147483648.

Definition add (a b : Z) : Z := wrap (a + b).
Definition sub (a b : Z) : Z := wrap (a - b).

End Int.

(** ** Product *)

Record Product : Type := mkProduct {
  id : Z;
  name : string;
  quantity : Z;
  price : Q
}.

(** [Product p;] : every member value-initialised. *)
Definition Product_default : Product := mkProduct 0 "" 0 0%Q.

Definition set_quantity (p : Product) (q : Z) : Product :=
  mkProduct (id p) (name p) q (price p).

Section Formatting.

(** What [ostream << double] writes. *)
Variable show_double : Q -> string.

Definition toString (p : Product) : string :=
  "ID: " +:+ pretty (id p) +:+ " | Name: " +:+ name p
  +:+ " | Qty: " +:+ pretty (quantity p) +:+ " | Price: " +:+ show_double (price p).

Definition toFileString (p : Product) : string :=
  pretty (id p) +:+ " " +:+ name p +:+ " " +:+ pretty (quantity p)
  +:+ " " +:+ show_double (price p).

End Formatting.

(** ** Console output *)

Inductive Msg : Type :=
  | AlreadyExists
  | ExceedsMax
  | Inserted
  | Deleted
  | NotFound
  | RestockBeyondMax
  | Restocked (q : Z)
  | NotEnoughStock
  | NowEmpty (n : string)
  | NowShort (n : string)
  | NowFull (n : string)
  | SaleSuccessful.

Definition newline : string := String (Ascii.ascii_of_nat 10) "".

Definition render (m : Msg) : string :=
  match m with
  | AlreadyExists => " X Product already exists." +:+ newline
  | ExceedsMax => " X Quantity cannot exceed 100." +:+ newline
  | Inserted => "Product inserted successfully. :D " +:+ newline
  | Deleted => " Product deleted successfully. :D " +:+ newline
  | NotFound => " X Product not found." +:+ newline
  | RestockBeyondMax => " X Cannot restock beyond 100." +:+ newline
  | Restocked q =>
      "Restocked successfully.:D Current quantity: " +:+ pretty q +:+ newline
  | NotEnoughStock => " X Not enough stock." +:+ newline
  | NowEmpty n => " X Product '" +:+ n +:+ "' is now EMPTY!" +:+ newline
  | NowShort n => "  Product '" +:+ n +:+ "' is SHORT and needs refilling!" +:+ newline
  | NowFull n => " Product '" +:+ n +:+ "' is FULL. :D" +:+ newline
  | SaleSuccessful => "Sale successful. :D" +:+ newline
  end.

(** ** Inventory *)

Module Inventory.

(** What a call leaves behind: the returned [bool], the map and the text
    written to [cout]. *)
Record Outcome : Type := mkOutcome {
  ret : bool;
  products : gmap Z Product;
  cout : list Msg
}.

Definition insertProduct (m : gmap Z Product) (p : Product) : Outcome :=
  match m !! id p with
  | Some _ => mkOutcome false m [AlreadyExists]
  | None =>
      if bool_decide (quantity p > 100) then mkOutcome false m [ExceedsMax]
      else mkOutcome true (<[id p := p]> m) [Inserted]
  end.

Definition deleteProduct (m : gmap Z Product) (i : Z) : Outcome :=
  match m !! i with
  | Some _ => mkOutcome true (delete i m) [Deleted]
  | None => mkOutcome false m [NotFound]
  end.

Definition restockProduct (m : gmap Z Product) (i amount : Z) : Outcome :=
  match m !! i with
  | None => mkOutcome false m [NotFound]
  | Some prod =>
      if bool_decide (Int.add (quantity prod) amount > 100)
      then mkOutcome false m [RestockBeyondMax]
      else
        let prod' := set_quantity prod (Int.add (quantity prod) amount) in
        mkOutcome true (<[i := prod']> m) [Restocked (quantity prod')]
  end.

(** The warning printed after the decrement, if any. *)
Definition warning (prod : Product) : list Msg :=
  if bool_decide (quantity prod = 0) then [NowEmpty (name prod)]
  else if bool_decide (quantity prod < 20) then [NowShort (name prod)]
  else if bool_decide (quantity prod = 100) then [NowFull (name prod)]
  else [].

(** [sellProduct] also writes through the reference [outTaken]. *)
Record SaleOutcome : Type := mkSale {
  sale : Outcome;
  outTaken : Product
}.

Definition sellProduct (m : gmap Z Product) (i amount : Z) (taken : Product)
  : SaleOutcome :=
  match m !! i with
  | None => mkSale (mkOutcome false m [NotFound]) taken
  | Some prod =>
      if bool_decide (quantity prod < amount)
      then mkSale (mkOutcome false m [NotEnoughStock]) taken
      else
        let prod' := set_quantity prod (Int.sub (quantity prod) amount) in
        mkSale (mkOutcome true (<[i := prod']> m)
                  (warning prod' ++ [SaleSuccessful]))
               (set_quantity prod' amount)
  end.

Definition productExists (m : gmap Z Product) (i : Z) : bool :=
  bool_decide (is_Some (m !! i)).

(** Iteration over a [std::map]: the entries by ascending key. *)
Definition key_le (x y : Z * Product) : Prop := x.1 <= y.1.

#[global] Instance key_le_dec x y : Decision (key_le x y).
Proof. unfold key_le. apply _. Defined.

Definition entries (m : gmap Z Product) : list (Z * Product) :=
  merge_sort key_le (map_to_list m).

Section InventoryDocument.

Variable show_double : Q -> string.

(** The [stringstream] is threaded through the loop; every [<<] appends. *)
Definition getFileContent (timestamp : string) (m : gmap Z Product) : string :=
  let content := "" in
  let content := content +:+ "=== INVENTORY EXPORT ===" +:+ newline in
  let content := content +:+ "Timestamp: " +:+ timestamp +:+ newline +:+ newline in
  fold_left
    (fun content kp => content +:+ toFileString show_double kp.2 +:+ newline)
    (entries m) content.

(** [showInventory], as the text it writes to [cout]. *)
Definition showInventory (m : gmap Z Product) : string :=
  let out := "" +:+ newline +:+ "=== INVENTORY STATUS ===" +:+ newline in
  if bool_decide (size m = 0%nat) then out +:+ "No products." +:+ newline
  else
    fold_left
      (fun out kp => out +:+ toString show_double kp.2 +:+ newline)
      (entries m) out.

End InventoryDocument.

End Inventory.

(** ** Reciept *)

Module Reciept.

Record t : Type := mkReciept {
  soldItems : list Product;
  total : Q
}.

(** A fresh receipt: no items, [total = 0.0]. *)
Definition empty : t := mkReciept [] 0%Q.

Definition addItem (r : t) (n : string) (qty : Z) (pr : Q) : t :=
  let p := mkProduct (id Product_default) n qty pr in
  mkReciept (soldItems r ++ [p]) (total r + pr * inject_Z qty)%Q.

Definition clear (r : t) : t := mkReciept [] 0%Q.

Definition isEmpty (r : t) : bool :=
  match soldItems r with [] => true | _ => false end.

(** The amount printed at the end of an item's line. *)
Definition lineTotal (p : Product) : Q := (inject_Z (quantity p) * price p)%Q.

Section RecieptDocument.

Variable show_double : Q -> string.

Definition item_line (p : Product) : string :=
  name p +:+ " x" +:+ pretty (quantity p) +:+ " @ " +:+ show_double (price p)
  +:+ " = " +:+ show_double (lineTotal p).

Definition getFileContent (timestamp : string) (r : t) : string :=
  let content := "" in
  let content := content +:+ "===== RECEIPT =====" +:+ newline in
  let content := content +:+ "Timestamp: " +:+ timestamp +:+ newline in
  let content := content +:+ "-------------------" +:+ newline in
  let content :=
    fold_left (fun content p => content +:+ item_line p +:+ newline)
      (soldItems r) content in
  let content := content +:+ "-------------------" +:+ newline in
  let content := content +:+ "Total: " +:+ show_double (total r) +:+ newline in
  content +:+ "===================" +:+ newline.

End RecieptDocument.

End Reciept.

(** ** Files *)

Module FileExporter.

(** [exportToFile content filepath] on a disk that maps paths to contents.
    [opens] tells whether the [ofstream] could be opened; an opened file is
    created or truncated and receives [content]. *)
Definition exportToFile (opens : bool) (disk : gmap string string)
    (content filepath : string) : bool * gmap string string :=
  if opens then (true, <[filepath := content]> disk) else (false, disk).

End FileExporter.

(** ** The role menus and the application *)

(** What the application owns, and the disk it writes to. *)
Record World : Type := mkWorld {
  inventory : gmap Z Product;
  receipt : Reciept.t;
  disk : gmap string string
}.

(** What one command obtains from outside: the values [InputHandler] hands
    back once the user has typed something valid, the two readings of the
    clock an export makes (file name, then document), and whether the file
    opens. *)
Record Answers : Type := mkAnswers {
  typed_product : Product;
  typed_id : Z;
  typed_amount : Z;
  clock_filename : string;
  clock_document : string;
  file_opens : bool
}.

Inductive Role : Type := Admin | InventoryManager | Cashier.

Module Menu.

Section Handlers.

Variable show_double : Q -> string.

(** The handlers are written out once per menu class in the source, with the
    same bodies. They are given here by their effect on the inventory, the
    receipt and the disk; the dialogue on the terminal is left out. *)
Definition insertProduct (a : Answers) (w : World) : World :=
  mkWorld
    (Inventory.products (Inventory.insertProduct (inventory w) (typed_product a)))
    (receipt w) (disk w).

Definition deleteProduct (a : Answers) (w : World) : World :=
  mkWorld
    (Inventory.products (Inventory.deleteProduct (inventory w) (typed_id a)))
    (receipt w) (disk w).

Definition restockProduct (a : Answers) (w : World) : World :=
  mkWorld
    (Inventory.products
       (Inventory.restockProduct (inventory w) (typed_id a) (typed_amount a)))
    (receipt w) (disk w).

Definition sellProduct (a : Answers) (w : World) : World :=
  let s :=
    Inventory.sellProduct (inventory w) (typed_id a) (typed_amount a)
      Product_default in
  let sold := Inventory.outTaken s in
  mkWorld
    (Inventory.products (Inventory.sale s))
    (if Inventory.ret (Inventory.sale s)
     then Reciept.addItem (receipt w) (name sold) (typed_amount a) (price sold)
     else receipt w)
    (disk w).

Definition exportInventory (a : Answers) (w : World) : World :=
  let filename := "inventory_" +:+ clock_filename a +:+ ".txt" in
  mkWorld (inventory w) (receipt w)
    (FileExporter.exportToFile (file_opens a) (disk w)
       (Inventory.getFileContent show_double (clock_document a) (inventory w))
       filename).2.

Definition exportReceipt (a : Answers) (w : World) : World :=
  if Reciept.isEmpty (receipt w) then w
  else
    let filename := "receipt_" +:+ clock_filename a +:+ ".txt" in
    mkWorld (inventory w) (receipt w)
      (FileExporter.exportToFile (file_opens a) (disk w)
         (Reciept.getFileContent show_double (clock_document a) (receipt w))
         filename).2.

(** The [switch] of each menu's [processChoice]; showing the inventory and
    the [default] branch change nothing. *)
Definition processChoice (r : Role) (choice : Z) (a : Answers) (w : World) : World :=
  match r with
  | Admin =>
      match choice with
      | 1 => insertProduct a w
      | 2 => deleteProduct a w
      | 3 => restockProduct a w
      | 4 => sellProduct a w
      | 5 => w
      | 6 => exportInventory a w
      | 7 => exportReceipt a w
      | _ => w
      end
  | InventoryManager =>
      match choice with
      | 1 => insertProduct a w
      | 2 => deleteProduct a w
      | 3 => restockProduct a w
      | 4 => w
      | 5 => exportInventory a w
      | _ => w
      end
  | Cashier =>
      match choice with
      | 1 => sellProduct a w
      | 2 => w
      | 3 => exportReceipt a w
      | _ => w
      end
  end.

(** The choice that leaves the menu. *)
Definition back (r : Role) : Z :=
  match r with Admin => 8 | InventoryManager => 6 | Cashier => 4 end.

(** [show]: the loop over the choices typed, each with the answers its
    command obtains, until the user goes back.  When the list ends the menu
    is still waiting for input; the result is the world at that point. *)
Fixpoint show (r : Role) (typed : list (Z * Answers)) (w : World) : World :=
  match typed with
  | [] => w
  | (choice, a) :: rest =>
      if bool_decide (choice = back r) then w
      else show r rest (processChoice r choice a w)
  end.

End Handlers.

End Menu.

Module SupermarketApp.

Section App.

Variable show_double : Q -> string.

Definition handleRoleSelection (role : Z) (typed : list (Z * Answers)) (w : World)
  : World :=
  match role with
  | 1 => Menu.show show_double Admin typed w
  | 2 => Menu.show show_double InventoryManager typed w
  | 3 => Menu.show show_double Cashier typed w
  | _ => w
  end.

(** [run] from a given world: the roles chosen at the login menu, each with
    what is typed in the menu it opens, until the user exits. *)
Fixpoint run_from (w : World) (sessions : list (Z * list (Z * Answers))) : World :=
  match sessions with
  | [] => w
  | (role, typed) :: rest =>
      if bool_decide (role = 4) then w
      else run_from (handleRoleSelection role typed w) rest
  end.

(** The application starts with an empty inventory and an empty receipt. *)
Definition run (disk0 : gmap string string)
    (sessions : list (Z * list (Z * Answers))) : World :=
  run_from (mkWorld ∅ Reciept.empty disk0) sessions.

End App.

End SupermarketApp.

(** ** Sequences of calls *)

(** A call on the inventory, as a menu issues it. *)
Inductive Op : Type :=
  | Insert (p : Product)
  | Delete (i : Z)
  | Restock (i amount : Z)
  | Sell (i amount : Z).

Definition call (m : gmap Z Product) (op : Op) : Inventory.Outcome :=
  match op with
  | Insert p => Inventory.insertProduct m p
  | Delete i => Inventory.deleteProduct m i
  | Restock i amount => Inventory.restockProduct m i amount
  | Sell i amount => Inventory.sale (Inventory.sellProduct m i amount Product_default)
  end.

(** The inventory after a sequence of calls on the one created empty by
    [SupermarketApp]. *)
Definition run (ops : list Op) : gmap Z Product :=
  fold_left (fun m op => Inventory.products (call m op)) ops ∅.

(** No negative quantity is inserted, no negative amount restocked or sold. *)
Definition non_negative (op : Op) : Prop :=
  match op with
  | Insert p => 0 <= quantity p
  | Delete _ => True
  | Restock _ amount => 0 <= amount
  | Sell _ amount => 0 <= amount
  end.

(** In addition, the sum computed by a restock cannot leave [int]. *)
Definition moderate (op : Op) : Prop :=
  non_negative op /\
  match op with
  | Restock _ amount => amount <= Int.INT_MAX - 100
  | _ => True
  end.

Definition within_bounds (m : gmap Z Product) : Prop :=
  forall i p, m !! i = Some p -> 0 <= quantity p <= 100.

(** Every product is filed under its own id. *)
Definition keyed (m : gmap Z Product) : Prop :=
  forall k p, m !! k = Some p -> id p = k.

(** [insertProduct p] and then [deleteProduct (id p)] on what it left. *)
Definition insert_then_delete (m : gmap Z Product) (p : Product) : gmap Z Product :=
  Inventory.products
    (Inventory.deleteProduct (Inventory.products (Inventory.insertProduct m p)) (id p)).

(** The id a call addresses. *)
Definition target (op : Op) : Z :=
  match op with
  | Insert p => id p
  | Delete i => i
  | Restock i _ => i
  | Sell i _ => i
  end.

(** No negative amount is sold; inserts and restocks are free. *)
Definition sale_non_negative (op : Op) : Prop :=
  match op with
  | Sell _ amount => 0 <= amount
  | _ => True
  end.

(** The same ids are stored, with the same ids, names and prices inside;
    only quantities may differ. *)
Definition same_catalogue (m m' : gmap Z Product) : Prop :=
  forall i,
    match m !! i, m' !! i with
    | Some p, Some p' => id p' = id p /\ name p' = name p /\ price p' = price p
    | None, None => True
    | _, _ => False
    end.

(** The call on the inventory a menu choice leads to, if any. *)
Definition as_call (r : Role) (choice : Z) (a : Answers) : option Op :=
  match r with
  | Admin =>
      match choice with
      | 1 => Some (Insert (typed_product a))
      | 2 => Some (Delete (typed_id a))
      | 3 => Some (Restock (typed_id a) (typed_amount a))
      | 4 => Some (Sell (typed_id a) (typed_amount a))
      | _ => None
      end
  | InventoryManager =>
      match choice with
      | 1 => Some (Insert (typed_product a))
      | 2 => Some (Delete (typed_id a))
      | 3 => Some (Restock (typed_id a) (typed_amount a))
      | _ => None
      end
  | Cashier =>
      match choice with
      | 1 => Some (Sell (typed_id a) (typed_amount a))
      | _ => None
      end
  end.

(** A session in which no negative amount is typed for a sale: choice 4 of
    the admin menu (role 1), choice 1 of the cashier menu (role 3). *)
Definition no_negative_sale (session : Z * list (Z * Answers)) : Prop :=
  match session.1 with
  | 1 => Forall (fun ca => ca.1 = 4 -> 0 <= typed_amount ca.2) session.2
  | 3 => Forall (fun ca => ca.1 = 1 -> 0 <= typed_amount ca.2) session.2
  | _ => True
  end.

(** The files [w'] holds that [w] does not hold with the same content are
    all named [prefix ++ timestamp ++ ".txt"]. *)
Definition writes_only (prefix : string) (w w' : World) : Prop :=
  forall f, disk w' !! f <> disk w !! f ->
    exists timestamp, f = prefix +:+ timestamp +:+ ".txt".

(** A call on the receipt. *)
Inductive ReceiptOp : Type :=
  | AddItem (n : string) (qty : Z) (pr : Q)
  | Clear.

Definition receipt_call (r : Reciept.t) (op : ReceiptOp) : Reciept.t :=
  match op with
  | AddItem n qty pr => Reciept.addItem r n qty pr
  | Clear => Reciept.clear r
  end.

Definition receipt_run (ops : list ReceiptOp) : Reciept.t :=
  fold_left receipt_call ops Reciept.empty.

Definition Qsum (l : list Q) : Q := foldr Qplus 0%Q l.

(** ** Documents as lines *)

(** The text made of the lines [ls], each followed by a line terminator. *)
Definition unlines (ls : list string) : string :=
  foldr (fun l acc => l +:+ newline +:+ acc) "" ls.

(** ** Sample data *)

(** A formatting of prices for the examples: numerator, a slash, denominator. *)
Definition show_ratio (q : Q) : string :=
  pretty (Qnum q) +:+ "/" +:+ pretty (Zpos (Qden q)).

Definition milk (q : Z) : Product := mkProduct 1 "Milk" q (5 # 2).
Definition eggs (q : Z) : Product := mkProduct 2 "Eggs" q (3 # 1).

Definition shelf (q : Z) : gmap Z Product := {[ 1 := milk q ]}.
Definition two_products : gmap Z Product := <[ 2 := eggs 12 ]> (shelf 50).

(** Answers for the examples: product 1, an amount, the clock at noon and a
    disk that can be written. *)
Definition typing (amount : Z) : Answers :=
  mkAnswers (eggs 12) 1 amount "20240101_120000" "20240101_120000" true.

Definition shop : World := mkWorld two_products Reciept.empty ∅.

(** * Properties *)

(** ** Machine integers *)

Lemma wrap_in_range z : Int.in_range (Int.wrap z).
Proof.
  unfold Int.in_range, Int.wrap, Int.INT_MIN, Int.INT_MAX.
  pose proof (Z.mod_pos_bound (z + 2147483648) 4294967296). lia.
Qed.

Lemma wrap_small z : Int.in_range z -> Int.wrap z = z.
Proof.
  unfold Int.in_range, Int.wrap, Int.INT_MIN, Int.INT_MAX. intros Hz.
  rewrite Z.mod_small by lia. lia.
Qed.

Lemma add_exact a b : Int.in_range (a + b) -> Int.add a b = a + b.
Proof. apply wrap_small. Qed.

Lemma sub_exact a b : Int.in_range (a - b) -> Int.sub a b = a - b.
Proof. apply wrap_small. Qed.

(** Arithmetic side conditions about the range of [int]. *)
Ltac int_lia := unfold Int.in_range, Int.INT_MIN, Int.INT_MAX in *; lia.

(** A message that differs from every message of an explicit list is not
    in it. *)
Ltac not_printed :=
  let Hin := fresh "Hin" in
  intros Hin;
  repeat (apply elem_of_cons in Hin as [Hin|Hin]; [discriminate Hin|]);
  now apply elem_of_nil in Hin.

(** ** Insertion *)

(** C4: [insertProduct p] fails when [id p] is already present and when
    [quantity p > 100]; in every other case, a negative quantity included,
    it stores [p] under [id p] and succeeds. *)
Theorem insertProduct_contract (m : gmap Z Product) (p : Product) :
  (is_Some (m !! id p) ->
     Inventory.insertProduct m p = Inventory.mkOutcome false m [AlreadyExists]) /\
  (m !! id p = None -> quantity p > 100 ->
     Inventory.insertProduct m p = Inventory.mkOutcome false m [ExceedsMax]) /\
  (quantity p > 100 -> Inventory.ret (Inventory.insertProduct m p) = false) /\
  (m !! id p = None -> quantity p <= 100 ->
     Inventory.insertProduct m p
       = Inventory.mkOutcome true (<[id p := p]> m) [Inserted] /\
     Inventory.products (Inventory.insertProduct m p) !! id p = Some p).
Proof.
  unfold Inventory.insertProduct.
  split; [|split; [|split]].
  - intros [x Hx]. now rewrite Hx.
  - intros -> Hq. now rewrite bool_decide_eq_true_2.
  - intros Hq. destruct (m !! id p); [reflexivity|].
    now rewrite bool_decide_eq_true_2.
  - intros -> Hq. rewrite bool_decide_eq_false_2 by lia.
    split; [reflexivity|]. apply lookup_insert_eq.
Qed.

(** A product with a negative quantity is stored. *)
Lemma insertProduct_contract_witness :
  (∅ : gmap Z Product) !! id (milk (-5)) = None /\ quantity (milk (-5)) <= 100 /\
  Inventory.insertProduct ∅ (milk (-5))
    = Inventory.mkOutcome true (<[id (milk (-5)) := milk (-5)]> ∅) [Inserted] /\
  Inventory.products (Inventory.insertProduct ∅ (milk (-5))) !! id (milk (-5))
    = Some (milk (-5)).
Proof.
  assert (H1 : (∅ : gmap Z Product) !! id (milk (-5)) = None) by reflexivity.
  assert (H2 : quantity (milk (-5)) <= 100) by (simpl; lia).
  split; [exact H1|]. split; [exact H2|].
  exact (proj2 (proj2 (proj2 (insertProduct_contract ∅ (milk (-5))))) H1 H2).
Defined.

(** ** Failed calls *)

(** C6: a call of [insertProduct], [deleteProduct], [restockProduct] or
    [sellProduct] that returns [false] leaves the map as it was. *)
Theorem failure_keeps_inventory (m : gmap Z Product) :
  (forall p, Inventory.ret (Inventory.insertProduct m p) = false ->
     Inventory.products (Inventory.insertProduct m p) = m) /\
  (forall i, Inventory.ret (Inventory.deleteProduct m i) = false ->
     Inventory.products (Inventory.deleteProduct m i) = m) /\
  (forall i amount, Inventory.ret (Inventory.restockProduct m i amount) = false ->
     Inventory.products (Inventory.restockProduct m i amount) = m) /\
  (forall i amount taken,
     Inventory.ret (Inventory.sale (Inventory.sellProduct m i amount taken)) = false ->
     Inventory.products (Inventory.sale (Inventory.sellProduct m i amount taken)) = m).
Proof.
  split; [|split; [|split]].
  - intros p. unfold Inventory.insertProduct.
    destruct (m !! id p); [reflexivity|].
    case_bool_decide; [reflexivity | discriminate].
  - intros i. unfold Inventory.deleteProduct.
    destruct (m !! i); [discriminate | reflexivity].
  - intros i amount. unfold Inventory.restockProduct.
    destruct (m !! i); [|reflexivity].
    case_bool_decide; [reflexivity | discriminate].
  - intros i amount taken. unfold Inventory.sellProduct.
    destruct (m !! i); [|reflexivity].
    case_bool_decide; [reflexivity | discriminate].
Qed.

(** The four ways to fail on a shelf of 50 units of product 1: a duplicate
    insert, a delete and a restock of an unknown id, a sale of 51 units. *)
Lemma failure_keeps_inventory_witness :
  (Inventory.ret (Inventory.insertProduct (shelf 50) (milk 7)) = false /\
   Inventory.products (Inventory.insertProduct (shelf 50) (milk 7)) = shelf 50) /\
  (Inventory.ret (Inventory.deleteProduct (shelf 50) 9) = false /\
   Inventory.products (Inventory.deleteProduct (shelf 50) 9) = shelf 50) /\
  (Inventory.ret (Inventory.restockProduct (shelf 50) 9 5) = false /\
   Inventory.products (Inventory.restockProduct (shelf 50) 9 5) = shelf 50) /\
  (Inventory.ret (Inventory.sale
     (Inventory.sellProduct (shelf 50) 1 51 Product_default)) = false /\
   Inventory.products (Inventory.sale
     (Inventory.sellProduct (shelf 50) 1 51 Product_default)) = shelf 50).
Proof.
  destruct (failure_keeps_inventory (shelf 50)) as (Hi & Hd & Hr & Hs).
  split; [|split; [|split]].
  - split; [reflexivity | apply Hi; reflexivity].
  - split; [reflexivity | apply Hd; reflexivity].
  - split; [reflexivity | apply Hr; reflexivity].
  - split; [reflexivity | apply Hs; reflexivity].
Defined.

(** A failed sale does not write through [outTaken] either. *)
Lemma failed_sale_keeps_outTaken m i amount taken :
  Inventory.ret (Inventory.sale (Inventory.sellProduct m i amount taken)) = false ->
  Inventory.outTaken (Inventory.sellProduct m i amount taken) = taken.
Proof.
  unfold Inventory.sellProduct. destruct (m !! i); [|reflexivity].
  case_bool_decide; [reflexivity | discriminate].
Qed.

(** ** Insertion followed by deletion *)

(** C7 as stated fails when the id is taken: the insert is refused and the
    delete removes the product that was there. *)
Lemma insert_then_delete_taken_id :
  shelf 50 !! id (milk 7) = Some (milk 50) /\
  insert_then_delete (shelf 50) (milk 7) = ∅ /\
  insert_then_delete (shelf 50) (milk 7) <> shelf 50.
Proof.
  split; [reflexivity|]. split; [reflexivity|].
  intros H. apply (f_equal (fun m : gmap Z Product => m !! 1)) in H.
  vm_compute in H. discriminate H.
Qed.

(** C7, amended: when the inventory holds no product with [id p],
    [insertProduct p] followed by [deleteProduct (id p)] gives back the
    inventory as it was, with no entry for [id p]. *)
Theorem insert_then_delete_fresh_id (m : gmap Z Product) (p : Product) :
  m !! id p = None ->
  insert_then_delete m p = m /\ insert_then_delete m p !! id p = None.
Proof.
  intros Hfresh.
  assert (Heq : insert_then_delete m p = m).
  { unfold insert_then_delete, Inventory.insertProduct. rewrite Hfresh.
    case_bool_decide; simpl; unfold Inventory.deleteProduct.
    - now rewrite Hfresh.
    - rewrite lookup_insert_eq. simpl. now apply delete_insert_id. }
  split; [exact Heq | now rewrite Heq].
Qed.

Lemma insert_then_delete_fresh_id_witness :
  shelf 50 !! id (eggs 12) = None /\
  insert_then_delete (shelf 50) (eggs 12) = shelf 50 /\
  insert_then_delete (shelf 50) (eggs 12) !! id (eggs 12) = None.
Proof.
  assert (H : shelf 50 !! id (eggs 12) = None) by reflexivity.
  split; [exact H | exact (insert_then_delete_fresh_id (shelf 50) (eggs 12) H)].
Defined.

(** ** Restocking *)

(** C5 as stated fails where the sum leaves [int].  A shelf of 100 restocked
    with [INT_MAX] passes the guard although 100 + [INT_MAX] exceeds 100; a
    shelf of -1 restocked with [INT_MIN] is refused although -1 + [INT_MIN]
    does not exceed 100 (and could not be stored). *)
Lemma restockProduct_guard_overflow :
  (shelf 100 !! 1 = Some (milk 100) /\
   quantity (milk 100) + Int.INT_MAX > 100 /\
   Inventory.restockProduct (shelf 100) 1 Int.INT_MAX
     = Inventory.mkOutcome true (shelf (-2147483549)) [Restocked (-2147483549)]) /\
  (shelf (-1) !! 1 = Some (milk (-1)) /\
   quantity (milk (-1)) + Int.INT_MIN <= 100 /\
   Inventory.restockProduct (shelf (-1)) 1 Int.INT_MIN
     = Inventory.mkOutcome false (shelf (-1)) [RestockBeyondMax]).
Proof.
  split; (split; [reflexivity|]);
    (split; [vm_compute; first [reflexivity | discriminate]|]).
  - unfold Inventory.restockProduct.
    replace (shelf 100 !! 1) with (Some (milk 100)) by reflexivity.
    reflexivity.
  - unfold Inventory.restockProduct.
    replace (shelf (-1) !! 1) with (Some (milk (-1))) by reflexivity.
    reflexivity.
Qed.

(** C5, amended: [restockProduct i amount] fails when no product has id [i];
    for a stored quantity [q] with [q + amount] within [int], it fails when
    [q + amount > 100] and otherwise stores [q + amount] and succeeds,
    whatever the sign of [amount] and of the result. *)
Theorem restockProduct_contract (m : gmap Z Product) (i amount : Z) :
  (m !! i = None ->
     Inventory.restockProduct m i amount = Inventory.mkOutcome false m [NotFound]) /\
  (forall prod, m !! i = Some prod ->
     Int.in_range (quantity prod + amount) ->
     (quantity prod + amount > 100 ->
        Inventory.restockProduct m i amount
          = Inventory.mkOutcome false m [RestockBeyondMax]) /\
     (quantity prod + amount <= 100 ->
        Inventory.restockProduct m i amount
          = Inventory.mkOutcome true
              (<[i := set_quantity prod (quantity prod + amount)]> m)
              [Restocked (quantity prod + amount)])).
Proof.
  unfold Inventory.restockProduct. split.
  - now intros ->.
  - intros prod -> Hrange. rewrite (add_exact _ _ Hrange). split; intros Hq.
    + now rewrite bool_decide_eq_true_2.
    + now rewrite bool_decide_eq_false_2 by lia.
Qed.

(** Five units restocked with -10: the call succeeds and leaves -5. *)
Lemma restockProduct_contract_witness :
  shelf 5 !! 1 = Some (milk 5) /\
  Int.in_range (quantity (milk 5) + -10) /\
  quantity (milk 5) + -10 <= 100 /\
  Inventory.restockProduct (shelf 5) 1 (-10)
    = Inventory.mkOutcome true
        (<[1 := set_quantity (milk 5) (quantity (milk 5) + -10)]> (shelf 5))
        [Restocked (quantity (milk 5) + -10)].
Proof.
  assert (H1 : shelf 5 !! 1 = Some (milk 5)) by reflexivity.
  assert (H2 : Int.in_range (quantity (milk 5) + -10)) by (vm_compute; split; discriminate).
  assert (H3 : quantity (milk 5) + -10 <= 100) by (vm_compute; discriminate).
  split; [exact H1|]. split; [exact H2|]. split; [exact H3|].
  exact (proj2 (proj2 (restockProduct_contract (shelf 5) 1 (-10)) (milk 5) H1 H2) H3).
Defined.

(** ** Selling *)

(** What a sale that passes both guards does, overflow or not. *)
Lemma sellProduct_passed (m : gmap Z Product) (i amount : Z) (taken prod : Product) :
  m !! i = Some prod -> amount <= quantity prod ->
  Inventory.sellProduct m i amount taken =
    Inventory.mkSale
      (Inventory.mkOutcome true
         (<[i := set_quantity prod (Int.sub (quantity prod) amount)]> m)
         (Inventory.warning (set_quantity prod (Int.sub (quantity prod) amount))
            ++ [SaleSuccessful]))
      (mkProduct (id prod) (name prod) amount (price prod)).
Proof.
  intros Hi Hq. unfold Inventory.sellProduct. rewrite Hi.
  now rewrite bool_decide_eq_false_2 by lia.
Qed.

(** C1 as stated fails where the difference leaves [int]: one unit in stock
    and [INT_MIN] "sold" cannot leave 1 - [INT_MIN] units. *)
Lemma sellProduct_decrement_overflow :
  shelf 1 !! 1 = Some (milk 1) /\
  Int.INT_MIN <= quantity (milk 1) /\
  Inventory.products
    (Inventory.sale (Inventory.sellProduct (shelf 1) 1 Int.INT_MIN Product_default)) !! 1
    = Some (milk (-2147483647)) /\
  quantity (milk (-2147483647)) <> quantity (milk 1) - Int.INT_MIN /\
  ~ Int.in_range (quantity (milk 1) - Int.INT_MIN).
Proof.
  split; [reflexivity|]. split; [vm_compute; discriminate|].
  split; [|split; [vm_compute; discriminate | simpl; int_lia]].
  rewrite (sellProduct_passed _ _ _ _ (milk 1)); [reflexivity | reflexivity |].
  vm_compute; discriminate.
Qed.

(** C1, amended: when product [i] is stored with a quantity of at least
    [amount] and the remainder is within [int], [sellProduct i amount]
    succeeds, hands out a snapshot with quantity [amount] and the id, name and
    price of the stored product, and lowers the stored quantity by exactly
    [amount]. *)
Theorem sellProduct_sufficient_stock
    (m : gmap Z Product) (i amount : Z) (taken prod : Product) :
  m !! i = Some prod ->
  amount <= quantity prod ->
  quantity prod - amount <= Int.INT_MAX ->
  Inventory.ret (Inventory.sale (Inventory.sellProduct m i amount taken)) = true /\
  Inventory.outTaken (Inventory.sellProduct m i amount taken)
    = mkProduct (id prod) (name prod) amount (price prod) /\
  Inventory.products (Inventory.sale (Inventory.sellProduct m i amount taken))
    = <[i := set_quantity prod (quantity prod - amount)]> m.
Proof.
  intros Hi Hq Hmax. rewrite (sellProduct_passed _ _ _ _ _ Hi Hq). simpl.
  rewrite sub_exact by int_lia. auto.
Qed.

(** The scenario of the specification: 40 of 50 units sold, 10 remain. *)
Lemma sellProduct_sufficient_stock_witness :
  shelf 50 !! 1 = Some (milk 50) /\
  40 <= quantity (milk 50) /\
  quantity (milk 50) - 40 <= Int.INT_MAX /\
  Inventory.ret (Inventory.sale (Inventory.sellProduct (shelf 50) 1 40 Product_default))
    = true /\
  Inventory.outTaken (Inventory.sellProduct (shelf 50) 1 40 Product_default)
    = mkProduct (id (milk 50)) (name (milk 50)) 40 (price (milk 50)) /\
  Inventory.products
    (Inventory.sale (Inventory.sellProduct (shelf 50) 1 40 Product_default))
    = <[1 := set_quantity (milk 50) (quantity (milk 50) - 40)]> (shelf 50).
Proof.
  assert (H1 : shelf 50 !! 1 = Some (milk 50)) by reflexivity.
  assert (H2 : 40 <= quantity (milk 50)) by (vm_compute; discriminate).
  assert (H3 : quantity (milk 50) - 40 <= Int.INT_MAX) by (vm_compute; discriminate).
  split; [exact H1|]. split; [exact H2|]. split; [exact H3|].
  exact (sellProduct_sufficient_stock (shelf 50) 1 40 Product_default (milk 50) H1 H2 H3).
Defined.

(** C10 as stated fails where the difference leaves [int]: with one unit in
    stock and the negative amount [INT_MIN] the stored quantity does not
    become 1 - [INT_MIN], which no [int] can hold; it drops below what was
    there. *)
Lemma sellProduct_negative_overflow :
  shelf 1 !! 1 = Some (milk 1) /\
  0 <= quantity (milk 1) /\
  Int.INT_MIN < 0 /\
  Inventory.sellProduct (shelf 1) 1 Int.INT_MIN Product_default
    = Inventory.mkSale
        (Inventory.mkOutcome true (shelf (-2147483647))
           [NowShort "Milk"; SaleSuccessful])
        (milk Int.INT_MIN) /\
  ~ (quantity (milk (-2147483647)) = quantity (milk 1) - Int.INT_MIN) /\
  ~ (quantity (milk (-2147483647)) > quantity (milk 1)) /\
  ~ Int.in_range (quantity (milk 1) - Int.INT_MIN).
Proof.
  split; [reflexivity|]. split; [vm_compute; discriminate|].
  split; [reflexivity|]. split.
  - rewrite (sellProduct_passed _ _ _ _ (milk 1)); [reflexivity | reflexivity |].
    vm_compute; discriminate.
  - split; [|split]; [vm_compute; intros H; discriminate H .. | simpl; int_lia].
Qed.

(** C10, amended: when product [i] is stored with a quantity [q >= 0],
    [amount] is negative and [q - amount] is within [int],
    [sellProduct i amount] succeeds without reporting a lack of stock, raises
    the stored quantity to [q - amount > q], and hands out a snapshot whose
    quantity is the negative [amount]. *)
Theorem sellProduct_negative_amount
    (m : gmap Z Product) (i amount : Z) (taken prod : Product) :
  m !! i = Some prod ->
  0 <= quantity prod ->
  amount < 0 ->
  quantity prod - amount <= Int.INT_MAX ->
  Inventory.ret (Inventory.sale (Inventory.sellProduct m i amount taken)) = true /\
  (NotEnoughStock ∉
     Inventory.cout (Inventory.sale (Inventory.sellProduct m i amount taken))) /\
  Inventory.products (Inventory.sale (Inventory.sellProduct m i amount taken))
    = <[i := set_quantity prod (quantity prod - amount)]> m /\
  quantity prod - amount > quantity prod /\
  quantity (Inventory.outTaken (Inventory.sellProduct m i amount taken)) = amount.
Proof.
  intros Hi Hq Hneg Hmax.
  rewrite (sellProduct_passed _ _ _ _ _ Hi) by lia. simpl.
  rewrite sub_exact by int_lia.
  split; [reflexivity|]. split; [|split; [reflexivity|split; [lia|reflexivity]]].
  unfold Inventory.warning. simpl. repeat case_bool_decide; not_printed.
Qed.

(** Fifty units and a sale of -60: the shelf ends up with 110, above the
    maximum of 100. *)
Lemma sellProduct_negative_amount_witness :
  shelf 50 !! 1 = Some (milk 50) /\
  0 <= quantity (milk 50) /\
  -60 < 0 /\
  quantity (milk 50) - -60 <= Int.INT_MAX /\
  100 < quantity (milk 50) - -60 /\
  Inventory.ret (Inventory.sale (Inventory.sellProduct (shelf 50) 1 (-60) Product_default))
    = true /\
  (NotEnoughStock ∉ Inventory.cout
     (Inventory.sale (Inventory.sellProduct (shelf 50) 1 (-60) Product_default))) /\
  Inventory.products
    (Inventory.sale (Inventory.sellProduct (shelf 50) 1 (-60) Product_default))
    = <[1 := set_quantity (milk 50) (quantity (milk 50) - -60)]> (shelf 50) /\
  quantity (milk 50) - -60 > quantity (milk 50) /\
  quantity (Inventory.outTaken (Inventory.sellProduct (shelf 50) 1 (-60) Product_default))
    = -60.
Proof.
  assert (H1 : shelf 50 !! 1 = Some (milk 50)) by reflexivity.
  assert (H2 : 0 <= quantity (milk 50)) by (vm_compute; discriminate).
  assert (H3 : -60 < 0) by reflexivity.
  assert (H4 : quantity (milk 50) - -60 <= Int.INT_MAX) by (vm_compute; discriminate).
  split; [exact H1|]. split; [exact H2|]. split; [exact H3|]. split; [exact H4|].
  split; [reflexivity|].
  exact (sellProduct_negative_amount (shelf 50) 1 (-60) Product_default (milk 50)
           H1 H2 H3 H4).
Defined.

(** ** The FULL notification *)

(** C3 as stated fails: a sale of nothing from a full shelf, and a sale of a
    negative amount that brings the shelf to 100, both print the FULL line. *)
Lemma sellProduct_prints_full :
  Inventory.cout (Inventory.sale (Inventory.sellProduct (shelf 100) 1 0 Product_default))
    = [NowFull "Milk"; SaleSuccessful] /\
  Inventory.cout (Inventory.sale (Inventory.sellProduct (shelf 90) 1 (-10) Product_default))
    = [NowFull "Milk"; SaleSuccessful] /\
  NowFull "Milk" ∈
    Inventory.cout (Inventory.sale (Inventory.sellProduct (shelf 100) 1 0 Product_default)).
Proof.
  assert (H : Inventory.cout (Inventory.sale
                (Inventory.sellProduct (shelf 100) 1 0 Product_default))
              = [NowFull "Milk"; SaleSuccessful]).
  { rewrite (sellProduct_passed _ _ _ _ (milk 100)); [reflexivity | reflexivity |].
    vm_compute; discriminate. }
  split; [exact H|]. split.
  - rewrite (sellProduct_passed _ _ _ _ (milk 90)); [reflexivity | reflexivity |].
    vm_compute; discriminate.
  - rewrite H. apply list_elem_of_here.
Qed.

(** C3, amended: when the product sold is stored with at most 100 units and
    [amount] is positive, [sellProduct] does not print the FULL line: what is
    left is below what was there. *)
Theorem sellProduct_never_full
    (m : gmap Z Product) (i amount : Z) (taken : Product) (n : string) :
  0 < amount ->
  (forall prod, m !! i = Some prod -> quantity prod <= 100) ->
  NowFull n ∉ Inventory.cout (Inventory.sale (Inventory.sellProduct m i amount taken)).
Proof.
  intros Hpos Hmax. unfold Inventory.sellProduct.
  destruct (m !! i) as [prod|] eqn:Hi.
  - specialize (Hmax prod eq_refl). case_bool_decide as Hq; simpl.
    + not_printed.
    + rewrite sub_exact by int_lia.
      unfold Inventory.warning. simpl.
      repeat case_bool_decide; try lia; not_printed.
  - simpl. not_printed.
Qed.

(** Ten of 100 units sold: 90 are left and no warning is printed. *)
Lemma sellProduct_never_full_witness :
  0 < 10 /\
  (forall prod, shelf 100 !! 1 = Some prod -> quantity prod <= 100) /\
  NowFull "Milk" ∉
    Inventory.cout (Inventory.sale (Inventory.sellProduct (shelf 100) 1 10 Product_default)).
Proof.
  assert (H1 : 0 < 10) by reflexivity.
  assert (H2 : forall prod, shelf 100 !! 1 = Some prod -> quantity prod <= 100).
  { intros prod Hp. change (shelf 100 !! 1) with (Some (milk 100)) in Hp.
    injection Hp as <-. vm_compute; discriminate. }
  split; [exact H1|]. split; [exact H2|].
  exact (sellProduct_never_full (shelf 100) 1 10 Product_default "Milk" H1 H2).
Defined.

(** ** Bounds of the stored quantities *)

(** C2 at its failing input: a full shelf restocked with [INT_MAX].  Both
    calls are non-negative, the guard [quantity + amount > 100] is computed in
    [int], and the shelf is left with a negative quantity. *)
Lemma restock_overflow_leaves_bounds :
  Forall non_negative [Insert (milk 100); Restock 1 Int.INT_MAX] /\
  run [Insert (milk 100); Restock 1 Int.INT_MAX] = shelf (-2147483549) /\
  ~ within_bounds (run [Insert (milk 100); Restock 1 Int.INT_MAX]).
Proof.
  assert (Hrun : run [Insert (milk 100); Restock 1 Int.INT_MAX]
                 = shelf (-2147483549)) by reflexivity.
  split; [|split; [exact Hrun|]].
  - repeat constructor; vm_compute; discriminate.
  - rewrite Hrun. intros Hb.
    destruct (Hb 1 (milk (-2147483549)) eq_refl) as [Hlo _].
    vm_compute in Hlo. now apply Hlo.
Qed.

(** One call keeps the quantities in [0, 100] when the amounts are
    non-negative and the restocked sum stays within [int]. *)
Lemma call_within_bounds (m : gmap Z Product) (op : Op) :
  within_bounds m -> moderate op -> within_bounds (Inventory.products (call m op)).
Proof.
  intros Hb [Hnn Hmod]. destruct op as [p|i|i amount|i amount]; simpl in *.
  - unfold Inventory.insertProduct. destruct (m !! id p) eqn:Hi; [exact Hb|].
    case_bool_decide as Hq; [exact Hb|]. simpl. intros j p' Hj.
    apply lookup_insert_Some in Hj as [[_ <-]|[_ Hj]]; [lia | eauto].
  - unfold Inventory.deleteProduct. destruct (m !! i) eqn:Hi; [|exact Hb].
    simpl. intros j p' Hj. apply lookup_delete_Some in Hj as [_ Hj]. eauto.
  - unfold Inventory.restockProduct. destruct (m !! i) as [prod|] eqn:Hi; [|exact Hb].
    pose proof (Hb i prod Hi) as Hprod.
    rewrite add_exact by int_lia.
    case_bool_decide as Hq; [exact Hb|]. simpl. intros j p' Hj.
    apply lookup_insert_Some in Hj as [[_ <-]|[_ Hj]]; [simpl; lia | eauto].
  - unfold Inventory.sellProduct. destruct (m !! i) as [prod|] eqn:Hi; [|exact Hb].
    pose proof (Hb i prod Hi) as Hprod.
    case_bool_decide as Hq; [exact Hb|]. simpl.
    rewrite sub_exact by int_lia.
    intros j p' Hj.
    apply lookup_insert_Some in Hj as [[_ <-]|[_ Hj]]; [simpl; lia | eauto].
Qed.

Lemma calls_within_bounds (ops : list Op) (m : gmap Z Product) :
  within_bounds m -> Forall moderate ops ->
  within_bounds (fold_left (fun m op => Inventory.products (call m op)) ops m).
Proof.
  revert m. induction ops as [|op ops IH]; intros m Hb Hops; [exact Hb|].
  inversion Hops as [|? ? Hop Hrest]; subst. simpl.
  apply IH; [now apply call_within_bounds | exact Hrest].
Qed.

(** X6.  The invariant C2 describes, away from the overflow: over a sequence of
    calls with non-negative quantities and amounts, and restock amounts of at
    most [INT_MAX - 100], every stored quantity is in [0, 100] after every
    call. *)
Theorem quantities_within_bounds (ops : list Op) (k : nat) :
  Forall moderate ops -> within_bounds (run (take k ops)).
Proof.
  intros Hops. apply calls_within_bounds.
  - intros i p Hi. rewrite lookup_empty in Hi. discriminate Hi.
  - now apply Forall_take.
Qed.

(** ** Documents *)

Lemma append_cons (x : Ascii.ascii) (a b : string) :
  String x a +:+ b = String x (a +:+ b).
Proof. reflexivity. Qed.

Lemma append_assoc (a b c : string) : (a +:+ b) +:+ c = a +:+ (b +:+ c).
Proof.
  induction a as [|x a IH]; [reflexivity|].
  now rewrite !append_cons, IH.
Qed.

Lemma append_nil_r (a : string) : a +:+ "" = a.
Proof.
  induction a as [|x a IH]; [reflexivity|].
  now rewrite append_cons, IH.
Qed.

Lemma unlines_app (k l : list string) : unlines (k ++ l) = unlines k +:+ unlines l.
Proof.
  induction k as [|x k IH]; simpl; [reflexivity|].
  now rewrite IH, !append_assoc.
Qed.

(** A loop that streams one line per element writes the lines in order. *)
Lemma stream_lines {A} (f : A -> string) (l : list A) (content : string) :
  fold_left (fun content x => content +:+ f x +:+ newline) l content
  = content +:+ unlines (f <$> l).
Proof.
  revert content. induction l as [|x l IH]; intros content; simpl.
  - now rewrite append_nil_r.
  - now rewrite IH, !append_assoc.
Qed.

(** ** The receipt *)

Lemma Qsum_snoc (l : list Q) (x : Q) : (Qsum (l ++ [x]) == Qsum l + x)%Q.
Proof.
  induction l as [|y l IH]; simpl.
  - ring.
  - rewrite IH. ring.
Qed.

Lemma receipt_call_total (r : Reciept.t) (op : ReceiptOp) :
  (Reciept.total r == Qsum (Reciept.lineTotal <$> Reciept.soldItems r))%Q ->
  (Reciept.total (receipt_call r op)
   == Qsum (Reciept.lineTotal <$> Reciept.soldItems (receipt_call r op)))%Q.
Proof.
  intros Hr. destruct op as [n qty pr|]; simpl; [|reflexivity].
  rewrite fmap_app. simpl. rewrite Qsum_snoc, Hr.
  unfold Reciept.lineTotal. simpl. ring.
Qed.

Lemma receipt_calls_total (ops : list ReceiptOp) (r : Reciept.t) :
  (Reciept.total r == Qsum (Reciept.lineTotal <$> Reciept.soldItems r))%Q ->
  (Reciept.total (fold_left receipt_call ops r)
   == Qsum (Reciept.lineTotal <$> Reciept.soldItems (fold_left receipt_call ops r)))%Q.
Proof.
  revert r. induction ops as [|op ops IH]; intros r Hr; simpl; [exact Hr|].
  apply IH. now apply receipt_call_total.
Qed.

(** The receipt document, line by line. *)
Lemma receipt_layout (show_double : Q -> string) (timestamp : string) (r : Reciept.t) :
  Reciept.getFileContent show_double timestamp r
  = unlines (["===== RECEIPT ====="; "Timestamp: " +:+ timestamp; "-------------------"]
             ++ (Reciept.item_line show_double <$> Reciept.soldItems r)
             ++ ["-------------------";
                 "Total: " +:+ show_double (Reciept.total r);
                 "==================="]).
Proof.
  unfold Reciept.getFileContent. rewrite stream_lines.
  rewrite !unlines_app. simpl. now rewrite !append_assoc.
Qed.

(** C8: after any sequence of [addItem] and [clear] calls, the running total
    equals the sum of quantity times price over the items in the list, which
    is the sum of the amounts that end the item lines of the exported
    document. *)
Theorem total_is_sum_of_items
    (ops : list ReceiptOp) (show_double : Q -> string) (timestamp : string) :
  (Reciept.total (receipt_run ops)
   == Qsum ((fun p => inject_Z (quantity p) * price p)
              <$> Reciept.soldItems (receipt_run ops)))%Q /\
  (Qsum ((fun p => inject_Z (quantity p) * price p)
           <$> Reciept.soldItems (receipt_run ops))
   == Qsum (Reciept.lineTotal <$> Reciept.soldItems (receipt_run ops)))%Q /\
  Reciept.getFileContent show_double timestamp (receipt_run ops)
  = unlines (["===== RECEIPT ====="; "Timestamp: " +:+ timestamp; "-------------------"]
             ++ ((fun p => name p +:+ " x" +:+ pretty (quantity p) +:+ " @ "
                           +:+ show_double (price p) +:+ " = "
                           +:+ show_double (Reciept.lineTotal p))
                   <$> Reciept.soldItems (receipt_run ops))
             ++ ["-------------------";
                 "Total: " +:+ show_double (Reciept.total (receipt_run ops));
                 "==================="]).
Proof.
  split; [|split].
  - apply (receipt_calls_total ops Reciept.empty). reflexivity.
  - reflexivity.
  - apply receipt_layout.
Qed.

(** [clear] empties the list and resets the total, whatever was there. *)
Lemma clear_resets (r : Reciept.t) :
  Reciept.isEmpty (Reciept.clear r) = true /\ Reciept.total (Reciept.clear r) = 0%Q.
Proof. split; reflexivity. Qed.

(** ** The inventory export *)

#[local] Instance key_le_trans : Transitive Inventory.key_le.
Proof. intros x y z. unfold Inventory.key_le. lia. Qed.

#[local] Instance key_le_total : Total Inventory.key_le.
Proof. intros x y. unfold Inventory.key_le. lia. Qed.

(** The iteration visits exactly the stored entries, each once. *)
Lemma entries_Permutation (m : gmap Z Product) : Inventory.entries m ≡ₚ map_to_list m.
Proof. apply merge_sort_Permutation. Qed.

Lemma elem_of_entries (m : gmap Z Product) (k : Z) (p : Product) :
  (k, p) ∈ Inventory.entries m <-> m !! k = Some p.
Proof. rewrite entries_Permutation. apply elem_of_map_to_list. Qed.

Lemma length_entries (m : gmap Z Product) : length (Inventory.entries m) = size m.
Proof. rewrite entries_Permutation. apply length_map_to_list. Qed.

Lemma ascending_strict (l : list (Z * Product)) :
  StronglySorted Inventory.key_le l -> NoDup l.*1 -> StronglySorted Z.lt l.*1.
Proof.
  induction 1 as [|x l Hl IH Hx]; simpl; intros Hnd; [constructor|].
  apply NoDup_cons in Hnd as [Hnotin Hnd]. constructor; [now apply IH|].
  apply Forall_fmap, Forall_forall. intros y Hy. simpl.
  pose proof (proj1 (Forall_forall _ _) Hx y Hy) as Hle. unfold Inventory.key_le in Hle.
  assert (x.1 <> y.1); [|lia].
  intros Heq. apply Hnotin. rewrite Heq. apply list_elem_of_fmap. now exists y.
Qed.

(** ... in ascending order of the keys. *)
Lemma entries_ascending (m : gmap Z Product) :
  StronglySorted Z.lt (Inventory.entries m).*1.
Proof.
  apply ascending_strict.
  - apply StronglySorted_merge_sort; apply _.
  - rewrite entries_Permutation. apply NoDup_fst_map_to_list.
Qed.

Lemma call_keyed (m : gmap Z Product) (op : Op) :
  keyed m -> keyed (Inventory.products (call m op)).
Proof.
  intros Hk. destruct op as [p|i|i amount|i amount]; simpl.
  - unfold Inventory.insertProduct. destruct (m !! id p); [exact Hk|].
    case_bool_decide; [exact Hk|]. simpl. intros j p' Hj.
    apply lookup_insert_Some in Hj as [[<- <-]|[_ Hj]]; [reflexivity | eauto].
  - unfold Inventory.deleteProduct. destruct (m !! i); [|exact Hk].
    simpl. intros j p' Hj. apply lookup_delete_Some in Hj as [_ Hj]. eauto.
  - unfold Inventory.restockProduct. destruct (m !! i) as [prod|] eqn:Hi; [|exact Hk].
    case_bool_decide; [exact Hk|]. simpl. intros j p' Hj.
    apply lookup_insert_Some in Hj as [[<- <-]|[_ Hj]]; [simpl; eauto | eauto].
  - unfold Inventory.sellProduct. destruct (m !! i) as [prod|] eqn:Hi; [|exact Hk].
    case_bool_decide; [exact Hk|]. simpl. intros j p' Hj.
    apply lookup_insert_Some in Hj as [[<- <-]|[_ Hj]]; [simpl; eauto | eauto].
Qed.

(** The inventories the application builds file every product under its id. *)
Lemma run_keyed (ops : list Op) : keyed (run ops).
Proof.
  unfold run. assert (H0 : keyed (∅ : gmap Z Product)).
  { intros k p Hk. rewrite lookup_empty in Hk. discriminate Hk. }
  revert H0. generalize (∅ : gmap Z Product).
  induction ops as [|op ops IH]; intros m Hm; simpl; [exact Hm|].
  apply IH. now apply call_keyed.
Qed.

Lemma ids_ascending (m : gmap Z Product) :
  keyed m -> StronglySorted Z.lt (id <$> (Inventory.entries m).*2).
Proof.
  intros Hk. replace (id <$> (Inventory.entries m).*2) with (Inventory.entries m).*1.
  - apply entries_ascending.
  - rewrite <- list_fmap_compose. apply Forall_fmap_ext_1.
    apply Forall_forall. intros [k p] Hkp. simpl.
    symmetry. apply Hk. now apply elem_of_entries.
Qed.

(** C9 as stated fails: between the timestamp line and the first product line
    the document has an empty line. *)
Lemma getFileContent_blank_line :
  Inventory.getFileContent show_ratio "20240101_120000" two_products
  = unlines ["=== INVENTORY EXPORT ==="; "Timestamp: 20240101_120000"; "";
             "1 Milk 50 5/2"; "2 Eggs 12 3/1"] /\
  Inventory.getFileContent show_ratio "20240101_120000" two_products
  <> unlines ("=== INVENTORY EXPORT ===" :: "Timestamp: 20240101_120000" ::
              (toFileString show_ratio <$> (Inventory.entries two_products).*2)).
Proof.
  split; [vm_compute; reflexivity|].
  vm_compute. intros H. discriminate H.
Qed.

(** C9, amended: the export document is a header line, a timestamp line, an
    empty line, and then one line per stored product, in ascending order of
    the ids; each of these lines is the id, name, quantity and price of the
    product joined by single spaces.  For an inventory of two products the
    lines after the empty one are exactly two. *)
Theorem getFileContent_layout
    (show_double : Q -> string) (timestamp : string) (m : gmap Z Product) :
  Inventory.getFileContent show_double timestamp m
  = unlines ("=== INVENTORY EXPORT ===" :: ("Timestamp: " +:+ timestamp) :: "" ::
             ((fun p => String.concat " "
                          [pretty (id p); name p; pretty (quantity p);
                           show_double (price p)])
                <$> (Inventory.entries m).*2)) /\
  (forall k p, (k, p) ∈ Inventory.entries m <-> m !! k = Some p) /\
  length (Inventory.entries m) = size m /\
  StronglySorted Z.lt (Inventory.entries m).*1 /\
  (keyed m -> StronglySorted Z.lt (id <$> (Inventory.entries m).*2)) /\
  (size m = 2%nat ->
     exists p1 p2, (Inventory.entries m).*2 = [p1; p2]).
Proof.
  split; [|split; [|split; [|split; [|split]]]].
  - unfold Inventory.getFileContent. rewrite stream_lines.
    rewrite <- list_fmap_compose. simpl. now rewrite !append_assoc.
  - apply elem_of_entries.
  - apply length_entries.
  - apply entries_ascending.
  - apply ids_ascending.
  - intros Hsize. rewrite <- length_entries in Hsize.
    destruct (Inventory.entries m) as [|[k1 p1] [|[k2 p2] [|x l]]];
      try discriminate Hsize.
    now exists p1, p2.
Qed.

(** The export of milk and eggs. *)
Lemma getFileContent_layout_witness :
  keyed two_products /\ size two_products = 2%nat /\
  Inventory.getFileContent show_ratio "20240101_120000" two_products
  = unlines ("=== INVENTORY EXPORT ===" :: ("Timestamp: " +:+ "20240101_120000") :: "" ::
             ((fun p => String.concat " "
                          [pretty (id p); name p; pretty (quantity p);
                           show_ratio (price p)])
                <$> (Inventory.entries two_products).*2)) /\
  StronglySorted Z.lt (id <$> (Inventory.entries two_products).*2) /\
  (exists p1 p2, (Inventory.entries two_products).*2 = [p1; p2]).
Proof.
  assert (Hk : keyed two_products) by exact (run_keyed [Insert (milk 50); Insert (eggs 12)]).
  assert (Hs : size two_products = 2%nat) by reflexivity.
  destruct (getFileContent_layout show_ratio "20240101_120000" two_products)
    as (Hdoc & _ & _ & _ & Hids & Htwo).
  split; [exact Hk|]. split; [exact Hs|]. split; [exact Hdoc|].
  split; [exact (Hids Hk) | exact (Htwo Hs)].
Defined.

(** ** The scenarios of the specification *)

(** Milk is inserted with 50 units; 40 are sold (10 left, the SHORT warning),
    then 10 (none left, the EMPTY warning); a sale of one more is refused. *)
Example milk_scenario :
  Inventory.insertProduct ∅ (milk 50)
    = Inventory.mkOutcome true (shelf 50) [Inserted] /\
  Inventory.sellProduct (shelf 50) 1 40 Product_default
    = Inventory.mkSale
        (Inventory.mkOutcome true (shelf 10) [NowShort "Milk"; SaleSuccessful])
        (milk 40) /\
  Inventory.sellProduct (shelf 10) 1 10 Product_default
    = Inventory.mkSale
        (Inventory.mkOutcome true (shelf 0) [NowEmpty "Milk"; SaleSuccessful])
        (milk 10) /\
  Inventory.sellProduct (shelf 0) 1 1 Product_default
    = Inventory.mkSale (Inventory.mkOutcome false (shelf 0) [NotEnoughStock])
        Product_default.
Proof. repeat split; reflexivity. Qed.

(** A product with 101 units is refused and its id stays free. *)
Example overfull_insert_scenario :
  Inventory.insertProduct (shelf 50) (eggs 101)
    = Inventory.mkOutcome false (shelf 50) [ExceedsMax] /\
  shelf 50 !! 2 = None.
Proof. split; reflexivity. Qed.

(** * Further properties of the inventory *)

(** ** What a call leaves alone *)

(** X1: a call changes nothing about the products stored under other ids
    than the one it addresses. *)
Theorem call_elsewhere (m : gmap Z Product) (op : Op) (j : Z) :
  j <> target op -> Inventory.products (call m op) !! j = m !! j.
Proof.
  intros Hj. destruct op as [p|i|i amount|i amount]; simpl in *.
  - unfold Inventory.insertProduct. destruct (m !! id p); [reflexivity|].
    case_bool_decide; [reflexivity|]. simpl. now apply lookup_insert_ne.
  - unfold Inventory.deleteProduct. destruct (m !! i); [|reflexivity].
    simpl. now apply lookup_delete_ne.
  - unfold Inventory.restockProduct. destruct (m !! i); [|reflexivity].
    case_bool_decide; [reflexivity|]. simpl. now apply lookup_insert_ne.
  - unfold Inventory.sellProduct. destruct (m !! i); [|reflexivity].
    case_bool_decide; [reflexivity|]. simpl. now apply lookup_insert_ne.
Qed.

(** Selling milk does not touch the eggs. *)
Lemma call_elsewhere_witness :
  2 <> target (Sell 1 40) /\
  Inventory.products (call two_products (Sell 1 40)) !! 2 = two_products !! 2.
Proof.
  assert (H : 2 <> target (Sell 1 40)) by (simpl; lia).
  split; [exact H | exact (call_elsewhere two_products (Sell 1 40) 2 H)].
Defined.

Lemma same_catalogue_refl (m : gmap Z Product) : same_catalogue m m.
Proof. intros i. destruct (m !! i); auto. Qed.

Lemma same_catalogue_trans (m1 m2 m3 : gmap Z Product) :
  same_catalogue m1 m2 -> same_catalogue m2 m3 -> same_catalogue m1 m3.
Proof.
  intros H12 H23 i. specialize (H12 i). specialize (H23 i).
  destruct (m1 !! i), (m2 !! i), (m3 !! i); try tauto.
  destruct H12 as (? & ? & ?), H23 as (? & ? & ?). repeat split; congruence.
Qed.

(** Storing a product with another quantity keeps the catalogue. *)
Lemma requantify_same_catalogue (m : gmap Z Product) (i q : Z) (prod : Product) :
  m !! i = Some prod -> same_catalogue m (<[i := set_quantity prod q]> m).
Proof.
  intros Hi j. destruct (decide (i = j)) as [<-|Hne].
  - rewrite Hi, lookup_insert_eq. simpl. auto.
  - rewrite lookup_insert_ne by exact Hne. destruct (m !! j); auto.
Qed.

Lemma restock_same_catalogue (m : gmap Z Product) (i amount : Z) :
  same_catalogue m (Inventory.products (Inventory.restockProduct m i amount)).
Proof.
  unfold Inventory.restockProduct.
  destruct (m !! i) as [prod|] eqn:Hi; [|apply same_catalogue_refl].
  case_bool_decide; [apply same_catalogue_refl|]. simpl.
  now apply requantify_same_catalogue.
Qed.

Lemma sell_same_catalogue (m : gmap Z Product) (i amount : Z) (taken : Product) :
  same_catalogue m
    (Inventory.products (Inventory.sale (Inventory.sellProduct m i amount taken))).
Proof.
  unfold Inventory.sellProduct.
  destruct (m !! i) as [prod|] eqn:Hi; [|apply same_catalogue_refl].
  case_bool_decide; [apply same_catalogue_refl|]. simpl.
  now apply requantify_same_catalogue.
Qed.

(** X2: restocking and selling, successful or not, neither add nor remove a
    product and change no id, name or price: quantities are all they touch. *)
Theorem stock_movements_keep_catalogue
    (m : gmap Z Product) (i amount : Z) (taken : Product) :
  same_catalogue m (Inventory.products (Inventory.restockProduct m i amount)) /\
  same_catalogue m
    (Inventory.products (Inventory.sale (Inventory.sellProduct m i amount taken))) /\
  dom (Inventory.products (Inventory.restockProduct m i amount)) = dom m /\
  dom (Inventory.products (Inventory.sale (Inventory.sellProduct m i amount taken)))
  = dom m.
Proof.
  assert (Hdom : forall m' : gmap Z Product, same_catalogue m m' -> dom m' = dom m).
  { intros m' H. apply set_eq. intros j. rewrite !elem_of_dom.
    specialize (H j). destruct (m !! j), (m' !! j); try tauto;
      split; intros [x Hx]; try discriminate Hx; eauto. }
  pose proof (restock_same_catalogue m i amount) as Hr.
  pose proof (sell_same_catalogue m i amount taken) as Hs.
  split; [exact Hr|]. split; [exact Hs|]. split; apply Hdom; assumption.
Qed.

(** ** Insertion never overwrites *)

(** X3: whatever is passed to [insertProduct], a product that was stored
    before the call is stored unchanged after it. *)
Theorem insertProduct_never_overwrites
    (m : gmap Z Product) (p : Product) (i : Z) (stored : Product) :
  m !! i = Some stored ->
  Inventory.products (Inventory.insertProduct m p) !! i = Some stored.
Proof.
  intros Hi. unfold Inventory.insertProduct.
  destruct (m !! id p) eqn:Hp; [exact Hi|].
  case_bool_decide; [exact Hi|]. simpl.
  rewrite lookup_insert_ne; [exact Hi|]. intros <-. congruence.
Qed.

(** Milk at 7 units cannot replace the milk on the shelf. *)
Lemma insertProduct_never_overwrites_witness :
  shelf 50 !! 1 = Some (milk 50) /\
  Inventory.products (Inventory.insertProduct (shelf 50) (milk 7)) !! 1
  = Some (milk 50).
Proof.
  assert (H : shelf 50 !! 1 = Some (milk 50)) by reflexivity.
  split; [exact H|].
  exact (insertProduct_never_overwrites (shelf 50) (milk 7) 1 (milk 50) H).
Defined.

(** ** The number of products *)

(** X4: a successful insert adds exactly one product, a successful delete
    removes exactly one, and every other call, failed or not, keeps the
    number of products. *)
Theorem product_count (m : gmap Z Product) (op : Op) :
  size (Inventory.products (call m op)) =
    match op with
    | Insert _ => if Inventory.ret (call m op) then S (size m) else size m
    | Delete _ => if Inventory.ret (call m op) then pred (size m) else size m
    | _ => size m
    end.
Proof.
  destruct op as [p|i|i amount|i amount]; simpl.
  - unfold Inventory.insertProduct. destruct (m !! id p) eqn:Hp; [reflexivity|].
    case_bool_decide; [reflexivity|]. simpl. now apply map_size_insert_None.
  - unfold Inventory.deleteProduct. destruct (m !! i) eqn:Hi; [|reflexivity].
    simpl. rewrite map_size_delete, Hi. reflexivity.
  - unfold Inventory.restockProduct. destruct (m !! i) eqn:Hi; [|reflexivity].
    case_bool_decide; [reflexivity|]. simpl. rewrite map_size_insert, Hi. reflexivity.
  - unfold Inventory.sellProduct. destruct (m !! i) eqn:Hi; [|reflexivity].
    case_bool_decide; [reflexivity|]. simpl. rewrite map_size_insert, Hi. reflexivity.
Qed.

(** ** The maximum of 100 *)

Lemma call_at_most_max (m : gmap Z Product) (op : Op) :
  (forall i p, m !! i = Some p -> quantity p <= 100) ->
  sale_non_negative op ->
  forall i p, Inventory.products (call m op) !! i = Some p -> quantity p <= 100.
Proof.
  intros Hb Hop. destruct op as [p|i|i amount|i amount]; simpl in *.
  - unfold Inventory.insertProduct. destruct (m !! id p) eqn:Hi; [exact Hb|].
    case_bool_decide as Hq; [exact Hb|]. simpl. intros j p' Hj.
    apply lookup_insert_Some in Hj as [[_ <-]|[_ Hj]]; [lia | eauto].
  - unfold Inventory.deleteProduct. destruct (m !! i) eqn:Hi; [|exact Hb].
    simpl. intros j p' Hj. apply lookup_delete_Some in Hj as [_ Hj]. eauto.
  - unfold Inventory.restockProduct. destruct (m !! i) as [prod|] eqn:Hi; [|exact Hb].
    case_bool_decide as Hq; [exact Hb|]. simpl. intros j p' Hj.
    apply lookup_insert_Some in Hj as [[_ <-]|[_ Hj]]; [simpl; lia | eauto].
  - unfold Inventory.sellProduct. destruct (m !! i) as [prod|] eqn:Hi; [|exact Hb].
    pose proof (Hb i prod Hi) as Hprod.
    case_bool_decide as Hq; [exact Hb|]. simpl.
    rewrite sub_exact by int_lia.
    intros j p' Hj.
    apply lookup_insert_Some in Hj as [[_ <-]|[_ Hj]]; [simpl; lia | eauto].
Qed.

(** X5: over any sequence of calls in which no negative amount is sold, no
    stored quantity ever exceeds 100, whatever quantities are inserted and
    whatever amounts are restocked: the value the restock guard compares with
    100 is the value that is stored. *)
Theorem max_quantity_enforced (ops : list Op) (i : Z) (p : Product) :
  Forall sale_non_negative ops ->
  run ops !! i = Some p ->
  quantity p <= 100.
Proof.
  unfold run. intros Hops.
  assert (H0 : forall j q, (∅ : gmap Z Product) !! j = Some q -> quantity q <= 100).
  { intros j q Hj. rewrite lookup_empty in Hj. discriminate Hj. }
  revert H0 i p. generalize (∅ : gmap Z Product).
  induction Hops as [|op ops Hop Hops IH]; intros m Hm i p; simpl; [apply Hm|].
  apply IH. now apply call_at_most_max.
Qed.

(** Also when the restocked sum leaves [int]. *)
Lemma max_quantity_enforced_witness :
  Forall sale_non_negative [Insert (milk 100); Restock 1 Int.INT_MAX; Sell 1 0] /\
  run [Insert (milk 100); Restock 1 Int.INT_MAX; Sell 1 0] !! 1
    = Some (milk (-2147483549)) /\
  quantity (milk (-2147483549)) <= 100.
Proof.
  assert (H1 : Forall sale_non_negative
                 [Insert (milk 100); Restock 1 Int.INT_MAX; Sell 1 0]).
  { repeat constructor. vm_compute. discriminate. }
  assert (H2 : run [Insert (milk 100); Restock 1 Int.INT_MAX; Sell 1 0] !! 1
               = Some (milk (-2147483549))) by reflexivity.
  split; [exact H1|]. split; [exact H2|].
  exact (max_quantity_enforced _ 1 (milk (-2147483549)) H1 H2).
Defined.

(** A day of moderate calls: insert, restock, sell. *)
Lemma quantities_within_bounds_witness :
  Forall moderate [Insert (milk 50); Restock 1 30; Sell 1 80] /\
  within_bounds (run (take 3 [Insert (milk 50); Restock 1 30; Sell 1 80])).
Proof.
  assert (H : Forall moderate [Insert (milk 50); Restock 1 30; Sell 1 80]).
  { repeat constructor; vm_compute; discriminate. }
  split; [exact H|].
  exact (quantities_within_bounds [Insert (milk 50); Restock 1 30; Sell 1 80] 3 H).
Defined.

(** ** Round trips *)

Lemma set_quantity_same (p : Product) : set_quantity p (quantity p) = p.
Proof. now destruct p. Qed.

(** X7: deleting a product and inserting it again gives back the inventory,
    provided the product is filed under its id and holds at most 100 units
    (a product brought above 100 by a negative sale is refused). *)
Theorem delete_then_insert (m : gmap Z Product) (i : Z) (p : Product) :
  m !! i = Some p ->
  id p = i ->
  quantity p <= 100 ->
  Inventory.products
    (Inventory.insertProduct (Inventory.products (Inventory.deleteProduct m i)) p)
  = m.
Proof.
  intros Hi <- Hq. unfold Inventory.deleteProduct. rewrite Hi. simpl.
  unfold Inventory.insertProduct. rewrite lookup_delete_eq.
  rewrite bool_decide_eq_false_2 by lia. simpl.
  rewrite insert_delete_eq. now apply insert_id.
Qed.

Lemma delete_then_insert_witness :
  two_products !! 2 = Some (eggs 12) /\ id (eggs 12) = 2 /\
  quantity (eggs 12) <= 100 /\
  Inventory.products
    (Inventory.insertProduct
       (Inventory.products (Inventory.deleteProduct two_products 2)) (eggs 12))
  = two_products.
Proof.
  assert (H1 : two_products !! 2 = Some (eggs 12)) by reflexivity.
  assert (H2 : id (eggs 12) = 2) by reflexivity.
  assert (H3 : quantity (eggs 12) <= 100) by (vm_compute; discriminate).
  split; [exact H1|]. split; [exact H2|]. split; [exact H3|].
  exact (delete_then_insert two_products 2 (eggs 12) H1 H2 H3).
Defined.

(** X8: a sale of a non-negative amount followed by a restock of the same
    amount gives back the inventory, when the product held at most 100 units
    and enough of them. *)
Theorem sell_then_restock
    (m : gmap Z Product) (i amount : Z) (taken p : Product) :
  m !! i = Some p ->
  0 <= amount <= quantity p ->
  quantity p <= 100 ->
  Inventory.ret
    (Inventory.restockProduct
       (Inventory.products (Inventory.sale (Inventory.sellProduct m i amount taken)))
       i amount) = true /\
  Inventory.products
    (Inventory.restockProduct
       (Inventory.products (Inventory.sale (Inventory.sellProduct m i amount taken)))
       i amount)
  = m.
Proof.
  intros Hi Ha Hq.
  rewrite (sellProduct_passed _ _ _ _ _ Hi) by lia. simpl.
  rewrite sub_exact by int_lia.
  unfold Inventory.restockProduct. rewrite lookup_insert_eq. simpl.
  rewrite add_exact by int_lia.
  rewrite bool_decide_eq_false_2 by lia. simpl. split; [reflexivity|].
  rewrite insert_insert_eq.
  replace (quantity p - amount + amount) with (quantity p) by lia.
  unfold set_quantity at 1. simpl. fold (set_quantity p (quantity p)).
  rewrite set_quantity_same. now apply insert_id.
Qed.

Lemma sell_then_restock_witness :
  shelf 50 !! 1 = Some (milk 50) /\
  0 <= 40 <= quantity (milk 50) /\
  quantity (milk 50) <= 100 /\
  Inventory.ret
    (Inventory.restockProduct
       (Inventory.products
          (Inventory.sale (Inventory.sellProduct (shelf 50) 1 40 Product_default)))
       1 40) = true /\
  Inventory.products
    (Inventory.restockProduct
       (Inventory.products
          (Inventory.sale (Inventory.sellProduct (shelf 50) 1 40 Product_default)))
       1 40)
  = shelf 50.
Proof.
  assert (H1 : shelf 50 !! 1 = Some (milk 50)) by reflexivity.
  assert (H2 : 0 <= 40 <= quantity (milk 50)) by (split; vm_compute; discriminate).
  assert (H3 : quantity (milk 50) <= 100) by (vm_compute; discriminate).
  split; [exact H1|]. split; [exact H2|]. split; [exact H3|].
  exact (sell_then_restock (shelf 50) 1 40 Product_default (milk 50) H1 H2 H3).
Defined.

(** ** The listing *)

(** X9: [showInventory] writes an empty line and the title, and then either
    the line "No products." when the inventory is empty, or one line per
    product in ascending order of the ids, with the fields labelled as in
    [toString]; it never writes "No products." above a list of products. *)
Theorem showInventory_layout (show_double : Q -> string) (m : gmap Z Product) :
  (m = ∅ ->
   Inventory.showInventory show_double m
   = unlines [""; "=== INVENTORY STATUS ==="; "No products."]) /\
  (m <> ∅ ->
   Inventory.showInventory show_double m
   = unlines ("" :: "=== INVENTORY STATUS ===" ::
              ((fun p => "ID: " +:+ pretty (id p) +:+ " | Name: " +:+ name p
                         +:+ " | Qty: " +:+ pretty (quantity p)
                         +:+ " | Price: " +:+ show_double (price p))
                 <$> (Inventory.entries m).*2)) /\
   length (Inventory.entries m).*2 = size m /\
   StronglySorted Z.lt (Inventory.entries m).*1).
Proof.
  unfold Inventory.showInventory. split.
  - intros ->. reflexivity.
  - intros Hne. rewrite bool_decide_eq_false_2
      by (intros H; now apply map_size_empty_iff in H).
    split; [|split].
    + rewrite stream_lines, <- list_fmap_compose. simpl.
      now rewrite !append_assoc.
    + rewrite length_fmap. apply length_entries.
    + apply entries_ascending.
Qed.

Lemma showInventory_layout_witness :
  Inventory.showInventory show_ratio ∅
  = unlines [""; "=== INVENTORY STATUS ==="; "No products."] /\
  two_products <> ∅ /\
  Inventory.showInventory show_ratio two_products
  = unlines [""; "=== INVENTORY STATUS ===";
             "ID: 1 | Name: Milk | Qty: 50 | Price: 5/2";
             "ID: 2 | Name: Eggs | Qty: 12 | Price: 3/1"].
Proof.
  assert (H : two_products <> ∅).
  { intros H. apply (f_equal (fun m : gmap Z Product => m !! 1)) in H.
    vm_compute in H. discriminate H. }
  split; [exact (proj1 (showInventory_layout show_ratio ∅) eq_refl)|].
  split; [exact H|].
  rewrite (proj1 (proj2 (showInventory_layout show_ratio two_products) H)).
  vm_compute. reflexivity.
Defined.

(** * Properties of the menus and of the application *)

(** ** What a choice does *)

(** Case analysis of a choice against the numbers of a [switch]. *)
Ltac by_choice c :=
  destruct c as [|c|c]; try reflexivity;
  do 4 (try (destruct c as [c|c|]; try reflexivity)).

Lemma processChoice_inventory (show_double : Q -> string)
    (r : Role) (choice : Z) (a : Answers) (w : World) :
  inventory (Menu.processChoice show_double r choice a w) =
    match as_call r choice a with
    | Some op => Inventory.products (call (inventory w) op)
    | None => inventory w
    end.
Proof.
  destruct r; by_choice choice;
    unfold Menu.processChoice, Menu.exportReceipt; simpl;
    destruct (Reciept.isEmpty (receipt w)); reflexivity.
Qed.

(** X10: a choice outside the numbers a menu offers changes nothing: not the
    inventory, not the receipt, not the disk.  The admin's choices 6 and 7 are
    such choices for the cashier, and 7 for the inventory manager. *)
Theorem invalid_choice_ignored (show_double : Q -> string)
    (r : Role) (choice : Z) (a : Answers) (w : World) :
  choice < 1 \/ Menu.back r <= choice ->
  Menu.processChoice show_double r choice a w = w.
Proof.
  intros Hc. destruct r; simpl in Hc;
    destruct choice as [|c|c]; try reflexivity;
    repeat (destruct c as [c|c|]; try reflexivity; try lia).
Qed.

Lemma invalid_choice_ignored_witness :
  (7 < 1 \/ Menu.back Cashier <= 7) /\
  Menu.processChoice show_ratio Cashier 7 (typing 5) shop = shop.
Proof.
  assert (H : 7 < 1 \/ Menu.back Cashier <= 7) by (right; vm_compute; discriminate).
  split; [exact H|].
  exact (invalid_choice_ignored show_ratio Cashier 7 (typing 5) shop H).
Defined.

(** ** Sales on the receipt *)



(** ** Sessions *)

(** A relation between the worlds before and after that every choice
    respects is respected by a whole session of a menu ... *)
Lemma show_respects (show_double : Q -> string) (R : World -> World -> Prop) (r : Role) :
  (forall w, R w w) ->
  (forall w1 w2 w3, R w1 w2 -> R w2 w3 -> R w1 w3) ->
  (forall choice a w, R w (Menu.processChoice show_double r choice a w)) ->
  forall typed w, R w (Menu.show show_double r typed w).
Proof.
  intros Hrefl Htrans Hstep typed.
  induction typed as [|[choice a] typed IH]; intros w; simpl; [apply Hrefl|].
  case_bool_decide; [apply Hrefl|].
  eapply Htrans; [apply Hstep | apply IH].
Qed.

(** ... and, when every role respects it, by a whole run of the application. *)
Lemma run_from_respects (show_double : Q -> string) (R : World -> World -> Prop) :
  (forall w, R w w) ->
  (forall w1 w2 w3, R w1 w2 -> R w2 w3 -> R w1 w3) ->
  (forall r choice a w, R w (Menu.processChoice show_double r choice a w)) ->
  forall sessions w, R w (SupermarketApp.run_from show_double w sessions).
Proof.
  intros Hrefl Htrans Hstep sessions.
  induction sessions as [|[role typed] sessions IH]; intros w; simpl; [apply Hrefl|].
  case_bool_decide; [apply Hrefl|].
  eapply Htrans; [|apply IH].
  unfold SupermarketApp.handleRoleSelection.
  by_choice role; try apply Hrefl; apply show_respects; auto.
Qed.

Lemma processChoice_receipt (show_double : Q -> string)
    (r : Role) (choice : Z) (a : Answers) (w : World) :
  receipt (Menu.processChoice show_double r choice a w) = receipt w \/
  exists n qty pr,
    receipt (Menu.processChoice show_double r choice a w)
    = Reciept.addItem (receipt w) n qty pr.
Proof.
  assert (Hsell : receipt (Menu.sellProduct a w) = receipt w \/
                  exists n qty pr,
                    receipt (Menu.sellProduct a w) = Reciept.addItem (receipt w) n qty pr).
  { unfold Menu.sellProduct. simpl.
    destruct (Inventory.ret _); [right; eauto | left; reflexivity]. }
  assert (Hexp : receipt (Menu.exportReceipt show_double a w) = receipt w).
  { unfold Menu.exportReceipt. now destruct (Reciept.isEmpty (receipt w)). }
  destruct r; by_choice choice; simpl; auto.
Qed.

(** X12: no menu removes, reorders or rewrites a line of the receipt: after
    any session of any role, the items that were on the receipt are still
    there, in order, before whatever the session added. *)
Theorem receipt_only_grows (show_double : Q -> string)
    (r : Role) (typed : list (Z * Answers)) (w : World) :
  Reciept.soldItems (receipt w)
    `prefix_of` Reciept.soldItems (receipt (Menu.show show_double r typed w)).
Proof.
  apply (show_respects show_double
           (fun w w' => Reciept.soldItems (receipt w)
                          `prefix_of` Reciept.soldItems (receipt w'))).
  - reflexivity.
  - intros w1 w2 w3 H12 H23. now transitivity (Reciept.soldItems (receipt w2)).
  - intros choice a w0.
    destruct (processChoice_receipt show_double r choice a w0) as [->|(n & q & pr & ->)].
    + reflexivity.
    + simpl. now apply prefix_app_r.
Qed.

(** X13: whatever roles are chosen and whatever is typed, from the start of
    the application the total on the receipt equals the sum of quantity
    times price over its items (in exact arithmetic). *)
Theorem app_receipt_total (show_double : Q -> string)
    (disk0 : gmap string string) (sessions : list (Z * list (Z * Answers))) :
  (Reciept.total (receipt (SupermarketApp.run show_double disk0 sessions))
   == Qsum (Reciept.lineTotal
              <$> Reciept.soldItems
                    (receipt (SupermarketApp.run show_double disk0 sessions))))%Q.
Proof.
  unfold SupermarketApp.run.
  apply (run_from_respects show_double
           (fun w w' =>
              (Reciept.total (receipt w)
               == Qsum (Reciept.lineTotal <$> Reciept.soldItems (receipt w)))%Q ->
              (Reciept.total (receipt w')
               == Qsum (Reciept.lineTotal <$> Reciept.soldItems (receipt w')))%Q)).
  - auto.
  - auto.
  - intros r choice a w.
    destruct (processChoice_receipt show_double r choice a w) as [->|(n & q & pr & ->)].
    + auto.
    + apply (receipt_call_total (receipt w) (AddItem n q pr)).
  - reflexivity.
Qed.

(** ** Separation of the roles *)

Lemma writes_only_refl (prefix : string) (w : World) : writes_only prefix w w.
Proof. intros f Hf. now contradict Hf. Qed.

Lemma writes_only_trans (prefix : string) (w1 w2 w3 : World) :
  writes_only prefix w1 w2 -> writes_only prefix w2 w3 -> writes_only prefix w1 w3.
Proof.
  intros H12 H23 f Hf.
  destruct (decide (disk w2 !! f = disk w1 !! f)) as [Heq|Hne].
  - apply H23. now rewrite Heq.
  - now apply H12.
Qed.

(** An export touches the file it names and no other. *)
Lemma exportToFile_elsewhere (opens : bool) (d : gmap string string)
    (content filepath f : string) :
  (FileExporter.exportToFile opens d content filepath).2 !! f <> d !! f ->
  f = filepath.
Proof.
  unfold FileExporter.exportToFile. destruct opens; simpl; intros Hf.
  - destruct (decide (filepath = f)) as [->|Hne]; [reflexivity|].
    now rewrite lookup_insert_ne in Hf.
  - now contradict Hf.
Qed.

(** X14: a cashier's session neither adds nor removes a product and changes
    no id, name or price; the only files it writes are receipt exports. *)
Theorem cashier_session (show_double : Q -> string)
    (typed : list (Z * Answers)) (w : World) :
  same_catalogue (inventory w)
    (inventory (Menu.show show_double Cashier typed w)) /\
  writes_only "receipt_" w (Menu.show show_double Cashier typed w).
Proof.
  apply (show_respects show_double
           (fun w w' => same_catalogue (inventory w) (inventory w') /\
                        writes_only "receipt_" w w')).
  - intros w0. split; [apply same_catalogue_refl | apply writes_only_refl].
  - intros w1 w2 w3 [Hc12 Hw12] [Hc23 Hw23].
    split; [eapply same_catalogue_trans | eapply writes_only_trans]; eauto.
  - intros choice a w0. split.
    + rewrite processChoice_inventory.
      by_choice choice; simpl;
        first [apply same_catalogue_refl | apply sell_same_catalogue].
    + by_choice choice; simpl; try apply writes_only_refl;
        try (intros f Hf; now contradict Hf).
      unfold Menu.exportReceipt.
      destruct (Reciept.isEmpty (receipt w0)); [apply writes_only_refl|].
      intros f Hf. simpl in Hf. apply exportToFile_elsewhere in Hf.
      now exists (clock_filename a).
Qed.

(** X15: an inventory manager's session leaves the receipt as it was; the
    only files it writes are inventory exports. *)
Theorem manager_session (show_double : Q -> string)
    (typed : list (Z * Answers)) (w : World) :
  receipt (Menu.show show_double InventoryManager typed w) = receipt w /\
  writes_only "inventory_" w (Menu.show show_double InventoryManager typed w).
Proof.
  apply (show_respects show_double
           (fun w w' => receipt w' = receipt w /\ writes_only "inventory_" w w')).
  - intros w0. split; [reflexivity | apply writes_only_refl].
  - intros w1 w2 w3 [Hr12 Hw12] [Hr23 Hw23].
    split; [congruence | eapply writes_only_trans; eauto].
  - intros choice a w0. split.
    + by_choice choice.
    + by_choice choice; simpl; try apply writes_only_refl;
        try (intros f Hf; now contradict Hf).
      intros f Hf. simpl in Hf. apply exportToFile_elsewhere in Hf.
      now exists (clock_filename a).
Qed.

(** ** No sale, no receipt file *)

Lemma receipt_name_not_inventory (t1 t2 : string) :
  "inventory_" +:+ t1 +:+ ".txt" <> "receipt_" +:+ t2 +:+ ".txt".
Proof. intros H. discriminate H. Qed.

Lemma isEmpty_addItem (rc : Reciept.t) (n : string) (qty : Z) (pr : Q) :
  Reciept.isEmpty (Reciept.addItem rc n qty pr) = false.
Proof. unfold Reciept.isEmpty. simpl. now destruct (Reciept.soldItems rc). Qed.

(** X16: if the receipt is empty when a session ends, the session has written
    no receipt file, whatever the role and whatever was typed: the export of an
    empty receipt is refused and a receipt that had a line keeps it. *)
Theorem no_sale_no_receipt_file (show_double : Q -> string)
    (r : Role) (typed : list (Z * Answers)) (w : World) (timestamp : string) :
  Reciept.isEmpty (receipt (Menu.show show_double r typed w)) = true ->
  disk (Menu.show show_double r typed w) !! ("receipt_" +:+ timestamp +:+ ".txt")
  = disk w !! ("receipt_" +:+ timestamp +:+ ".txt").
Proof.
  intros Hempty.
  enough (H : Reciept.isEmpty (receipt w) = true /\
              forall t, disk (Menu.show show_double r typed w)
                          !! ("receipt_" +:+ t +:+ ".txt")
                        = disk w !! ("receipt_" +:+ t +:+ ".txt"))
    by apply H.
  revert Hempty.
  apply (show_respects show_double
           (fun w w' =>
              Reciept.isEmpty (receipt w') = true ->
              Reciept.isEmpty (receipt w) = true /\
              forall t, disk w' !! ("receipt_" +:+ t +:+ ".txt")
                        = disk w !! ("receipt_" +:+ t +:+ ".txt"))).
  - auto.
  - intros w1 w2 w3 H12 H23 H3. destruct (H23 H3) as [H2 Hd23].
    destruct (H12 H2) as [H1 Hd12]. split; [exact H1|].
    intros t. now rewrite Hd23.
  - intros choice a w0.
    assert (Hsell : Reciept.isEmpty (receipt (Menu.sellProduct a w0)) = true ->
              Reciept.isEmpty (receipt w0) = true /\
              forall t, disk (Menu.sellProduct a w0) !! ("receipt_" +:+ t +:+ ".txt")
                        = disk w0 !! ("receipt_" +:+ t +:+ ".txt")).
    { unfold Menu.sellProduct. simpl. destruct (Inventory.ret _); [|auto].
      rewrite isEmpty_addItem. discriminate. }
    assert (Hinv : Reciept.isEmpty (receipt (Menu.exportInventory show_double a w0)) = true ->
              Reciept.isEmpty (receipt w0) = true /\
              forall t, disk (Menu.exportInventory show_double a w0)
                          !! ("receipt_" +:+ t +:+ ".txt")
                        = disk w0 !! ("receipt_" +:+ t +:+ ".txt")).
    { simpl. intros H. split; [exact H|]. intros t.
      destruct (decide ((FileExporter.exportToFile (file_opens a) (disk w0)
                  (Inventory.getFileContent show_double (clock_document a) (inventory w0))
                  ("inventory_" +:+ clock_filename a +:+ ".txt")).2
                  !! ("receipt_" +:+ t +:+ ".txt")
                = disk w0 !! ("receipt_" +:+ t +:+ ".txt"))) as [Heq|Hne]; [exact Heq|].
      apply exportToFile_elsewhere in Hne. symmetry in Hne.
      now apply receipt_name_not_inventory in Hne. }
    assert (Hrec : Reciept.isEmpty (receipt (Menu.exportReceipt show_double a w0)) = true ->
              Reciept.isEmpty (receipt w0) = true /\
              forall t, disk (Menu.exportReceipt show_double a w0)
                          !! ("receipt_" +:+ t +:+ ".txt")
                        = disk w0 !! ("receipt_" +:+ t +:+ ".txt")).
    { unfold Menu.exportReceipt.
      destruct (Reciept.isEmpty (receipt w0)) eqn:He; [auto|].
      simpl. rewrite He. discriminate. }
    destruct r; by_choice choice; simpl; auto.
Qed.

(** A cashier whose sale is refused asks for the receipt: nothing is written. *)
Lemma no_sale_no_receipt_file_witness :
  Reciept.isEmpty
    (receipt (Menu.show show_ratio Cashier [(1, typing 51); (3, typing 0)] shop)) = true /\
  disk (Menu.show show_ratio Cashier [(1, typing 51); (3, typing 0)] shop)
    !! ("receipt_" +:+ "20240101_120000" +:+ ".txt")
  = disk shop !! ("receipt_" +:+ "20240101_120000" +:+ ".txt").
Proof.
  assert (H : Reciept.isEmpty
                (receipt (Menu.show show_ratio Cashier
                            [(1, typing 51); (3, typing 0)] shop)) = true)
    by reflexivity.
  split; [exact H|].
  exact (no_sale_no_receipt_file show_ratio Cashier _ shop "20240101_120000" H).
Defined.

(** ** The inventory of the running application *)

(** X17: whatever roles are chosen and whatever is typed, every product of
    the application's inventory is stored under its own id. *)
Theorem app_inventory_keyed (show_double : Q -> string)
    (disk0 : gmap string string) (sessions : list (Z * list (Z * Answers))) :
  keyed (inventory (SupermarketApp.run show_double disk0 sessions)).
Proof.
  unfold SupermarketApp.run.
  apply (run_from_respects show_double
           (fun w w' => keyed (inventory w) -> keyed (inventory w'))).
  - auto.
  - auto.
  - intros r choice a w Hk. rewrite processChoice_inventory.
    destruct (as_call r choice a); [now apply call_keyed | exact Hk].
  - simpl. intros k p Hk. rewrite lookup_empty in Hk. discriminate Hk.
Qed.

Lemma show_at_most_max (show_double : Q -> string) (r : Role)
    (typed : list (Z * Answers)) (w : World) :
  Forall (fun ca => forall op, as_call r ca.1 ca.2 = Some op -> sale_non_negative op)
    typed ->
  (forall i p, inventory w !! i = Some p -> quantity p <= 100) ->
  forall i p, inventory (Menu.show show_double r typed w) !! i = Some p ->
    quantity p <= 100.
Proof.
  intros Htyped. revert w.
  induction Htyped as [|[choice a] typed Hca Htyped IH]; intros w Hw; simpl; [exact Hw|].
  case_bool_decide; [exact Hw|]. apply IH.
  rewrite processChoice_inventory. simpl in Hca.
  destruct (as_call r choice a) as [op|]; [|exact Hw].
  apply call_at_most_max; [exact Hw | now apply Hca].
Qed.

(** X18: in a run of the application in which no negative amount is typed
    for a sale, no stored quantity ever exceeds 100, whatever else is typed. *)
Theorem app_max_quantity (show_double : Q -> string)
    (disk0 : gmap string string) (sessions : list (Z * list (Z * Answers)))
    (i : Z) (p : Product) :
  Forall no_negative_sale sessions ->
  inventory (SupermarketApp.run show_double disk0 sessions) !! i = Some p ->
  quantity p <= 100.
Proof.
  unfold SupermarketApp.run. intros Hs.
  assert (H0 : forall j q,
             inventory (mkWorld ∅ Reciept.empty disk0) !! j = Some q -> quantity q <= 100).
  { simpl. intros j q Hj. rewrite lookup_empty in Hj. discriminate Hj. }
  revert H0 i p. generalize (mkWorld ∅ Reciept.empty disk0).
  induction Hs as [|[role typed] sessions Hsession Hs IH]; intros w Hw; simpl; [exact Hw|].
  case_bool_decide; [exact Hw|]. apply IH.
  unfold SupermarketApp.handleRoleSelection, no_negative_sale in *. simpl in Hsession.
  by_choice role; try exact Hw; apply show_at_most_max; try exact Hw.
  - eapply Forall_impl; [exact Hsession|]. intros [c a] Hc op. simpl in *.
    by_choice c; simpl; intros Hop; try discriminate Hop;
      injection Hop as <-; simpl; auto.
  - apply Forall_forall. intros [c a] _ op. simpl.
    by_choice c; simpl; intros Hop; try discriminate Hop;
      injection Hop as <-; simpl; auto.
  - eapply Forall_impl; [exact Hsession|]. intros [c a] Hc op. simpl in *.
    by_choice c; simpl; intros Hop; try discriminate Hop;
      injection Hop as <-; simpl; auto.
Qed.

(** The manager enters the eggs and asks to restock a product that is not
    there; the cashier's sale of that product is refused. *)
Lemma app_max_quantity_witness :
  Forall no_negative_sale
    [(2, [(1, typing 0); (3, typing 7)]); (3, [(1, typing 40)])] /\
  inventory (SupermarketApp.run show_ratio ∅
               [(2, [(1, typing 0); (3, typing 7)]); (3, [(1, typing 40)])]) !! 2
  = Some (eggs 12) /\
  quantity (eggs 12) <= 100.
Proof.
  assert (H1 : Forall no_negative_sale
                 [(2, [(1, typing 0); (3, typing 7)]); (3, [(1, typing 40)])]).
  { repeat constructor. simpl. intros _. vm_compute. discriminate. }
  assert (H2 : inventory (SupermarketApp.run show_ratio ∅
                 [(2, [(1, typing 0); (3, typing 7)]); (3, [(1, typing 40)])]) !! 2
               = Some (eggs 12)) by reflexivity.
  split; [exact H1|]. split; [exact H2|].
  exact (app_max_quantity show_ratio ∅ _ 2 (eggs 12) H1 H2).
Defined.

(** ** The disk *)

(** A run started in any world keeps the files that are there and writes
    exports only. *)
Lemma run_from_disk (show_double : Q -> string)
    (w : World) (sessions : list (Z * list (Z * Answers))) (f : string) :
  (is_Some (disk w !! f) ->
   is_Some (disk (SupermarketApp.run_from show_double w sessions) !! f)) /\
  (disk (SupermarketApp.run_from show_double w sessions) !! f <> disk w !! f ->
   exists timestamp,
     f = "inventory_" +:+ timestamp +:+ ".txt" \/
     f = "receipt_" +:+ timestamp +:+ ".txt").
Proof.
  pose (R := fun w w' : World =>
          (is_Some (disk w !! f) -> is_Some (disk w' !! f)) /\
          (disk w' !! f <> disk w !! f ->
           exists timestamp,
             f = "inventory_" +:+ timestamp +:+ ".txt" \/
             f = "receipt_" +:+ timestamp +:+ ".txt")).
  assert (Hsame : forall w w' : World, disk w' = disk w -> R w w').
  { intros w0 w' Hd. unfold R. rewrite Hd. split; [auto|].
    intros Hf. now contradict Hf. }
  assert (Hexp : forall (w0 : World) opens content filepath,
             (exists timestamp,
                filepath = "inventory_" +:+ timestamp +:+ ".txt" \/
                filepath = "receipt_" +:+ timestamp +:+ ".txt") ->
             R w0 (mkWorld (inventory w0) (receipt w0)
                     (FileExporter.exportToFile opens (disk w0) content filepath).2)).
  { intros w0 opens content filepath Hname. unfold R. simpl. split.
    - unfold FileExporter.exportToFile. destruct opens; simpl; [|auto].
      intros Hsome. destruct (decide (filepath = f)) as [->|Hne].
      + rewrite lookup_insert_eq. eauto.
      + now rewrite lookup_insert_ne.
    - intros Hf. apply exportToFile_elsewhere in Hf. now subst f. }
  change (R w (SupermarketApp.run_from show_double w sessions)).
  revert w. refine (run_from_respects show_double R _ _ _ sessions).
  - intros w. now apply Hsame.
  - intros w1 w2 w3 [Hk12 Hn12] [Hk23 Hn23]. split; [auto|]. intros Hf.
    destruct (decide (disk w2 !! f = disk w1 !! f)) as [Heq|Hne]; [|auto].
    apply Hn23. now rewrite Heq.
  - intros r choice a w.
    assert (Hinv : R w (Menu.exportInventory show_double a w))
      by (apply Hexp; eauto).
    assert (Hrec : R w (Menu.exportReceipt show_double a w)).
    { unfold Menu.exportReceipt.
      destruct (Reciept.isEmpty (receipt w)); [now apply Hsame|].
      apply Hexp. eauto. }
    destruct r; by_choice choice; simpl;
      first [exact Hinv | exact Hrec | now apply Hsame].
Qed.

(** X19: whatever roles are chosen and whatever is typed, the application
    removes no file, and every file it creates or rewrites is an export named
    "inventory_" or "receipt_", a timestamp, ".txt". *)
Theorem app_writes_exports_only (show_double : Q -> string)
    (disk0 : gmap string string) (sessions : list (Z * list (Z * Answers)))
    (f : string) :
  (is_Some (disk0 !! f) ->
   is_Some (disk (SupermarketApp.run show_double disk0 sessions) !! f)) /\
  (disk (SupermarketApp.run show_double disk0 sessions) !! f <> disk0 !! f ->
   exists timestamp,
     f = "inventory_" +:+ timestamp +:+ ".txt" \/
     f = "receipt_" +:+ timestamp +:+ ".txt").
Proof.
  exact (run_from_disk show_double (mkWorld ∅ Reciept.empty disk0) sessions f).
Qed.

(** The admin exports the inventory on a disk that holds a note: the note
    stays, and the file that appears is an inventory export. *)
Lemma app_writes_exports_only_witness :
  (is_Some (({[ "note.txt" := "keep" ]} : gmap string string) !! "note.txt") /\
   is_Some (disk (SupermarketApp.run show_ratio {[ "note.txt" := "keep" ]}
                    [(1, [(6, typing 0)])]) !! "note.txt")) /\
  (disk (SupermarketApp.run show_ratio {[ "note.txt" := "keep" ]}
           [(1, [(6, typing 0)])]) !! "inventory_20240101_120000.txt"
   <> ({[ "note.txt" := "keep" ]} : gmap string string)
        !! "inventory_20240101_120000.txt" /\
   exists timestamp,
     "inventory_20240101_120000.txt" = "inventory_" +:+ timestamp +:+ ".txt" \/
     "inventory_20240101_120000.txt" = "receipt_" +:+ timestamp +:+ ".txt").
Proof.
  assert (H1 : is_Some (({[ "note.txt" := "keep" ]} : gmap string string) !! "note.txt"))
    by (vm_compute; eauto).
  assert (H2 : disk (SupermarketApp.run show_ratio {[ "note.txt" := "keep" ]}
                       [(1, [(6, typing 0)])]) !! "inventory_20240101_120000.txt"
               <> ({[ "note.txt" := "keep" ]} : gmap string string)
                    !! "inventory_20240101_120000.txt")
    by (vm_compute; discriminate).
  split.
  - split; [exact H1|].
    exact (proj1 (app_writes_exports_only show_ratio {[ "note.txt" := "keep" ]}
                    [(1, [(6, typing 0)])] "note.txt") H1).
  - split; [exact H2|].
    exact (proj2 (app_writes_exports_only show_ratio {[ "note.txt" := "keep" ]}
                    [(1, [(6, typing 0)])] "inventory_20240101_120000.txt") H2).
Defined.
